(** * LoRA fine-tuning notebook (lora.ipynb): a shallow embedding

    The notebook is a sequential script over [datasets], [transformers],
    [peft], [evaluate], [torch] and [PIL].  Its own functions and cells are
    embedded below, each function under the name it has in the notebook.

    - Python dictionaries are finite maps ([gmap]); the task configuration
      map [config], whose iteration order matters, is an association list
      in insertion order, and the dictionaries in it are changed in place.
    - Integers are [Z] or [nat]; scores (logits, accuracy, learning rate,
      dropout) are exact rationals [Q], standing for the finite floating
      point values of a run.
    - Code that reads or changes global variables, prints or touches the
      file system is a function from worlds to worlds that may fail
      ([NB]); a Python exception is [None].
    - Of the libraries, what the properties below depend on is written out
      ([argmax], the accuracy metric, the parameter list of the ViT-base
      classifier, the wrapping done by [peft]); the rest is a class of
      uninterpreted operations ([Library]). *)

From Stdlib Require Import ZArith QArith Lia.
From stdpp Require Import base option list gmap strings fin_maps.

#[local] Open Scope string_scope.
#[local] Open Scope list_scope.
#[local] Open Scope nat_scope.

(** * Part I: the program *)

(** ** Data of the libraries, as far as the notebook looks into it *)

(** A [PIL] image: its mode ("L", "RGB", "RGBA", ...), its size and its
    band values. *)
Record Image := {
  mode   : string;
  width  : nat;
  height : nat;
  pixels : list Z;
}.

(** A [torch] tensor of floats: shape and entries. *)
Record Tensor := {
  tshape  : list nat;
  entries : list Q;
}.

(** A batch as the [datasets] library hands it to a transform: the columns
    "image" and "label", and the column "pixel_values" once a transform
    has added it. *)
Record Batch := {
  b_image        : list Image;
  b_label        : list nat;
  b_pixel_values : option (list Tensor);
}.

(** A [datasets.Dataset] (or one split of it): the names of its
    [ClassLabel] feature, its rows (image, label), and the function given
    to [set_transform], if any. *)
Record Dataset := {
  class_names : list string;         (* dataset.features["label"].names *)
  rows        : list (Image * nat);  (* {"image": ..., "label": ...} *)
  transform   : option (Batch → Batch);
}.

(** A [torch] parameter as [named_parameters()] lists it.  The dotted name
    "vit.encoder.layer.0.attention.attention.query.weight" is the module
    path [["vit"; "encoder"; "layer"; "0"; "attention"; "attention";
    "query"]] and the parameter name "weight". *)
Record Param := {
  module_path   : list string;
  pname         : string;
  shape         : list Z;
  requires_grad : bool;
}.

#[global] Instance Param_eq_dec : EqDecision Param.
Proof. solve_decision. Defined.

(** [p.numel()] *)
Definition numel (p : Param) : Z := foldr Z.mul 1%Z (shape p).

(** [peft.LoraConfig], the fields the notebook sets. *)
Inductive BiasMode := bias_none | bias_all | bias_lora_only.

Record LoraConfig := {
  r               : Z;
  lora_alpha      : Z;
  target_modules  : list string;
  lora_dropout    : Q;
  bias            : BiasMode;
  modules_to_save : list string;
}.

(** [transformers.TrainingArguments], the fields the notebook sets.
    [num_train_epochs] is not given to the constructor ([None]: the
    library default) and assigned later. *)
Record TrainingArguments := {
  output_dir                  : string;
  remove_unused_columns       : bool;
  eval_strategy               : string;
  save_strategy               : string;
  learning_rate               : Q;
  per_device_train_batch_size : Z;
  per_device_eval_batch_size  : Z;
  gradient_accumulation_steps : Z;
  fp16                        : bool;
  logging_steps               : Z;
  load_best_model_at_end      : bool;
  metric_for_best_model       : string;
  label_names                 : list string;
  num_train_epochs            : option Z;
}.

(** The image processor of the backbone ([preprocessor_config.json]). *)
Record ImageProcessor := {
  size_height : nat;        (* image_processor.size["height"] *)
  image_mean  : list Q;
  image_std   : list Q;
}.

(** Where the values of a model's weights come from.  The values
    themselves are not modelled; the forward pass is a function of this
    tag. *)
Inductive Weights :=
  | Pretrained (checkpoint : string)
      (* backbone of the hub checkpoint, classifier newly initialised *)
  | FreshAdapter (base : Weights)
      (* get_peft_model: adapter matrices at their initial values *)
  | Trained (start : Weights) (args : TrainingArguments) (train_data : Dataset)
      (* after trainer.train() on [train_data] under [args] *)
  | AdapterFrom (base : Weights) (path : string) (saved : Weights)
      (* PeftModel.from_pretrained: adapter and head read from [path] *).

(** A model: its [config.label2id] and [config.id2label], its parameters,
    the adapter configuration when it is a [PeftModel], and its weights. *)
Record Model := {
  config_label2id  : gmap string nat;
  config_id2label  : gmap nat string;
  named_parameters : list Param;
  peft_config      : option LoraConfig;
  weights          : Weights;
}.

(** What [trainer.save_model(path)] leaves in the directory [path]: the
    adapter configuration, the adapter and head parameters, the image
    processor given as [tokenizer], and the files with their sizes in
    bytes. *)
Record Artifact := {
  adapter_config  : LoraConfig;
  adapter_params  : list Param;
  adapter_weights : Weights;
  preprocessor    : ImageProcessor;
  dir_entries     : list (string * Z);   (* os.scandir: name, getsize *)
}.

(** ** Cell 5: [create_label_mappings] *)

(** The loop of [create_label_mappings]:
<<
    for i, label in enumerate(names):
        label2id[label] = i
        id2label[i] = label
>>
    [i] is the counter of [enumerate]; the pair is the two dictionaries. *)
Fixpoint label_loop (i : nat) (names : list string)
    (acc : gmap string nat * gmap nat string) : gmap string nat * gmap nat string :=
  match names with
  | [] => acc
  | label :: rest =>
      label_loop (S i) rest (<[label := i]> (fst acc), <[i := label]> (snd acc))
  end.

Definition create_label_mappings (dataset : Dataset)
    : gmap string nat * gmap nat string :=
  label_loop 0 (class_names dataset) (∅, ∅).

(** ** The libraries the notebook calls

    None of this is code of the notebook.  What the notebook needs of
    [numpy], [evaluate], [transformers] and [peft] is written out here
    after the behaviour of these libraries; the parameter counts that
    result are the ones the cell outputs of the notebook record (see
    [recorded_parameter_counts]).  What it needs of [PIL], [torchvision],
    the forward pass, the splitter and the network is kept abstract in
    the class [Library] below. *)

(** [numpy.argmax] / [torch.argmax] over one row: the index of the first
    maximal entry; an empty row raises. *)
Fixpoint argmax_from (best_i : nat) (best : Q) (i : nat) (xs : list Q) : nat :=
  match xs with
  | [] => best_i
  | x :: rest =>
      if Qlt_le_dec best x then argmax_from i x (S i) rest
      else argmax_from best_i best (S i) rest
  end.

Definition argmax (xs : list Q) : option nat :=
  match xs with
  | [] => None
  | x :: rest => Some (argmax_from 0 x 1 rest)
  end.

(** [np.argmax(a, axis=1)] for a two-dimensional array given by its rows. *)
Definition argmax_axis1 (a : list (list Q)) : option (list nat) :=
  mapM argmax a.

(** The metric [evaluate.load("accuracy")]: the share of predictions equal
    to their references.  Lists of different lengths raise; for no
    prediction at all the library gives not-a-number, which is [None]
    here as well. *)
Definition count_equal (predictions references : list nat) : nat :=
  length (filter (λ pr, fst pr = snd pr) (zip predictions references)).

Definition accuracy_compute (predictions references : list nat) : option Q :=
  if decide (length predictions = length references) then
    match length references with
    | 0 => None
    | S _ =>
        Some (Z.of_nat (count_equal predictions references)
              # Pos.of_nat (length references))
    end
  else None.

#[local] Open Scope Z_scope.

(** The parameters of a [torch.nn.Linear(in_features, out_features)] at
    the module path [path]. *)
Definition linear (path : list string) (in_features out_features : Z)
    : list Param :=
  [ {| module_path := path; pname := "weight";
       shape := [out_features; in_features]; requires_grad := true |};
    {| module_path := path; pname := "bias";
       shape := [out_features]; requires_grad := true |} ].

(** The parameters of a [torch.nn.LayerNorm(features)]. *)
Definition layer_norm (path : list string) (features : Z) : list Param :=
  [ {| module_path := path; pname := "weight";
       shape := [features]; requires_grad := true |};
    {| module_path := path; pname := "bias";
       shape := [features]; requires_grad := true |} ].

(** One encoder layer of the ViT-base backbone (hidden size 768,
    intermediate size 3072). *)
Definition vit_layer (index : string) : list Param :=
  let layer := ["vit"; "encoder"; "layer"; index] in
  linear (layer ++ ["attention"; "attention"; "query"]) 768 768 ++
  linear (layer ++ ["attention"; "attention"; "key"]) 768 768 ++
  linear (layer ++ ["attention"; "attention"; "value"]) 768 768 ++
  linear (layer ++ ["attention"; "output"; "dense"]) 768 768 ++
  linear (layer ++ ["intermediate"; "dense"]) 768 3072 ++
  linear (layer ++ ["output"; "dense"]) 3072 768 ++
  layer_norm (layer ++ ["layernorm_before"]) 768 ++
  layer_norm (layer ++ ["layernorm_after"]) 768.

Definition vit_layer_indices : list string :=
  ["0"; "1"; "2"; "3"; "4"; "5"; "6"; "7"; "8"; "9"; "10"; "11"].

(** The classifier of [ViTForImageClassification]: a linear layer when
    there is at least one label, the identity (no parameter) otherwise. *)
Definition vit_classifier (num_labels : nat) : list Param :=
  match num_labels with
  | O => []
  | S _ => linear ["classifier"] 768 (Z.of_nat num_labels)
  end.

(** [ViTForImageClassification] for the checkpoint
    google/vit-base-patch16-224-in21k: 16x16 patches of a 224x224 image
    (196 patches and the class token), twelve layers, no pooler; then the
    classifier. *)
Definition vit_backbone_parameters : list Param :=
  [ {| module_path := ["vit"; "embeddings"]; pname := "cls_token";
       shape := [1; 1; 768]; requires_grad := true |};
    {| module_path := ["vit"; "embeddings"]; pname := "position_embeddings";
       shape := [1; 197; 768]; requires_grad := true |};
    {| module_path := ["vit"; "embeddings"; "patch_embeddings"; "projection"];
       pname := "weight"; shape := [768; 3; 16; 16]; requires_grad := true |};
    {| module_path := ["vit"; "embeddings"; "patch_embeddings"; "projection"];
       pname := "bias"; shape := [768]; requires_grad := true |} ] ++
  concat (map vit_layer vit_layer_indices) ++
  layer_norm ["vit"; "layernorm"] 768.

Definition vit_base_parameters (num_labels : nat) : list Param :=
  vit_backbone_parameters ++ vit_classifier num_labels.

#[local] Close Scope Z_scope.

(** [AutoModelForImageClassification.from_pretrained(checkpoint,
    label2id=..., id2label=..., ignore_mismatched_sizes=True)]: the
    configuration takes the two mappings, the head has one output per
    entry of [id2label] and is newly initialised. *)
Definition from_pretrained (checkpoint : string)
    (label2id : gmap string nat) (id2label : gmap nat string) : Model :=
  {| config_label2id := label2id;
     config_id2label := id2label;
     named_parameters := vit_base_parameters (size id2label);
     peft_config := None;
     weights := Pretrained checkpoint |}.

(** *** [peft]: wrapping a model with a LoRA adapter *)

(** A module is selected by a list of names when its own name (the last
    segment of its path) is one of them. *)
Definition selected (names : list string) (path : list string) : bool :=
  match last path with
  | Some name => bool_decide (name ∈ names)
  | None => false
  end.

Definition frozen (p : Param) : Param :=
  {| module_path := module_path p; pname := pname p;
     shape := shape p; requires_grad := false |}.

Definition inside (wrapper : list string) (p : Param) : Param :=
  {| module_path := module_path p ++ wrapper; pname := pname p;
     shape := shape p; requires_grad := requires_grad p |}.

(** The two adapter matrices of a targeted linear layer of weight shape
    [out_features; in_features]: [lora_A] is [r] by [in_features],
    [lora_B] is [out_features] by [r]. *)
Definition lora_pair (config : LoraConfig) (trainable : bool) (p : Param)
    : list Param :=
  match shape p with
  | [out_features; in_features] =>
      [ {| module_path := module_path p ++ ["lora_A"; "default"];
           pname := "weight"; shape := [r config; in_features];
           requires_grad := trainable |};
        {| module_path := module_path p ++ ["lora_B"; "default"];
           pname := "weight"; shape := [out_features; r config];
           requires_grad := trainable |} ]
  | _ => []
  end.

(** What becomes of one parameter of the base model:
    - in a module named in [target_modules], it moves to [base_layer] and
      stays frozen; its weight brings the two adapter matrices;
    - in a module named in [modules_to_save], it is kept frozen as
      [original_module] and copied to [modules_to_save.default];
    - any other parameter is frozen ([bias="none"]: no bias is trained). *)
Definition wrap_param (config : LoraConfig) (trainable : bool) (p : Param)
    : list Param :=
  if selected (target_modules config) (module_path p) then
    inside ["base_layer"] (frozen p) ::
    (if decide (pname p = "weight") then lora_pair config trainable p else [])
  else if selected (modules_to_save config) (module_path p) then
    [ inside ["original_module"] (frozen p);
      {| module_path := module_path p ++ ["modules_to_save"; "default"];
         pname := pname p; shape := shape p; requires_grad := trainable |} ]
  else [frozen p].

(** Every name of the wrapped model lies under "base_model.model". *)
Definition under_base_model (p : Param) : Param :=
  {| module_path := "base_model" :: "model" :: module_path p; pname := pname p;
     shape := shape p; requires_grad := requires_grad p |}.

Definition inject_adapter (config : LoraConfig) (trainable : bool)
    (ps : list Param) : list Param :=
  map under_base_model (concat (map (wrap_param config trainable) ps)).

(** [peft.get_peft_model(model, config)] *)
Definition get_peft_model (model : Model) (config : LoraConfig) : Model :=
  {| config_label2id := config_label2id model;
     config_id2label := config_id2label model;
     named_parameters := inject_adapter config true (named_parameters model);
     peft_config := Some config;
     weights := FreshAdapter (weights model) |}.

(** The parameters an adapter checkpoint holds: the trainable ones. *)
Definition adapter_state (model : Model) : list Param :=
  filter (λ p, requires_grad p = true) (named_parameters model).

(** [peft.PeftModel.from_pretrained(model, path)], given what is stored at
    [path]: the adapter of the stored configuration, for inference (nothing
    is trainable), with the stored adapter and head weights. *)
Definition PeftModel_from_pretrained (model : Model) (path : string)
    (saved : Artifact) : Model :=
  {| config_label2id := config_label2id model;
     config_id2label := config_id2label model;
     named_parameters :=
       inject_adapter (adapter_config saved) false (named_parameters model);
     peft_config := Some (adapter_config saved);
     weights := AdapterFrom (weights model) path (adapter_weights saved) |}.

(** *** What stays abstract

    Each field stands for one library entry point whose result the
    notebook only passes on. *)
Class Library := {
  (** [image.convert(mode)] of [PIL] *)
  pil_convert : string → Image → Image;
  (** [torchvision.transforms]: [Resize(size)], [CenterCrop(size)],
      [ToTensor()], [Normalize(mean, std)] *)
  Resize : nat → Image → Image;
  CenterCrop : nat → Image → Image;
  ToTensor : Image → Tensor;
  Normalize : list Q → list Q → Tensor → Tensor;
  (** [image_processor(image, return_tensors="pt")] *)
  processor_call : ImageProcessor → Image → Tensor;
  (** [model(pixel_values).logits] for one image *)
  forward_logits : Model → Tensor → list Q;
  (** the files [trainer.save_model] writes, with their sizes *)
  written_files : Model → ImageProcessor → TrainingArguments → list (string * Z);
  (** [dataset.train_test_split(test_size)] with the generator in a given
      state: the two splits and the next state, or an exception *)
  train_test_split : nat → Q → Dataset → option (Dataset * Dataset * nat);
  (** [dataset.rename_column(old, new)] *)
  rename_column : string → string → Dataset → Dataset;
  (** [load_dataset(name, split)] and
      [AutoImageProcessor.from_pretrained(checkpoint)] from the hub,
      [Image.open(requests.get(url).raw)] from the web *)
  load_dataset : string → string → option Dataset;
  hub_image_processor : string → option ImageProcessor;
  fetch_image : string → option Image;
}.

(** ** The state of the notebook *)

(** A value of a task's configuration dictionary. *)
Inductive Value :=
  | VDataset (d : Dataset)
  | VLabel2id (m : gmap string nat)
  | VId2label (m : gmap nat string)
  | VInt (n : Z)
  | VStr (s : string)
  | VModel (m : Model)
  | VProcessor (p : ImageProcessor).

(** A line of the standard output, before formatting. *)
Inductive Line :=
  | TrainableLine (label : string) (trainable parameters : Z)
      (* "{label} trainable parameters: {trainable:,}/{parameters:,} (...%)" *)
  | ModelSizeLine (bytes : Z)
      (* "Model size: {(size / 1e6):.2} MB" *)
  | AccuracyLine (accuracy : Q)
      (* "Evaluation accuracy: {...}" *)
  | PredictionLine (label : string)
      (* "Prediction: {prediction}" *).

(** An entry into one of the two model builders or the creation of a
    trainer, with the arguments received.  The world keeps the list of
    them ([calls]); it is the record of who was called with what, and no
    code reads it. *)
Inductive Call :=
  | Call_build_lora_model (label2id : gmap string nat) (id2label : gmap nat string)
  | Call_build_inference_model
      (label2id : gmap string nat) (id2label : gmap nat string) (path : string)
  | Call_Trainer (model : Model) (args : TrainingArguments)
      (train_dataset eval_dataset : Dataset).

(** The global variables the cells share, the directory tree, the output
    and the state of the random generator.  [config] is the dictionary of
    cell 10 in insertion order; [training_arguments] is the one object of
    cell 18. *)
Record World := {
  config             : list (string * gmap string Value);
  training_arguments : TrainingArguments;
  image_processor    : ImageProcessor;
  files              : gmap string Artifact;
  stdout             : list Line;
  calls              : list Call;
  generator          : nat;
}.

(** Notebook code: it reads and changes the world and may raise. *)
Definition NB (A : Type) : Type := World → option (A * World).

Definition nb_ret {A} (a : A) : NB A := λ w, Some (a, w).

Definition nb_bind {A B} (m : NB A) (k : A → NB B) : NB B :=
  λ w, match m w with
       | Some (a, w') => k a w'
       | None => None
       end.

Definition raise {A} : NB A := λ _, None.

Definition from_option {A} (o : option A) : NB A :=
  match o with Some a => nb_ret a | None => raise end.

Definition get_world : NB World := λ w, Some (w, w).

Declare Scope nb_scope.
Delimit Scope nb_scope with nb.
Notation "x <~ m ;; k" := (nb_bind m (λ x, k))
  (at level 100, m at next level, right associativity) : nb_scope.
Notation "m ;;; k" := (nb_bind m (λ _, k))
  (at level 100, right associativity) : nb_scope.
#[local] Open Scope nb_scope.

Definition print (line : Line) : NB unit :=
  λ w, Some (tt, {| config := config w; training_arguments := training_arguments w;
                    image_processor := image_processor w; files := files w;
                    stdout := stdout w ++ [line]; calls := calls w;
                    generator := generator w |}).

Definition record_call (c : Call) : NB unit :=
  λ w, Some (tt, {| config := config w; training_arguments := training_arguments w;
                    image_processor := image_processor w; files := files w;
                    stdout := stdout w; calls := calls w ++ [c];
                    generator := generator w |}).

Definition set_config (c : list (string * gmap string Value)) : NB unit :=
  λ w, Some (tt, {| config := c; training_arguments := training_arguments w;
                    image_processor := image_processor w; files := files w;
                    stdout := stdout w; calls := calls w;
                    generator := generator w |}).

Definition set_training_arguments (a : TrainingArguments) : NB unit :=
  λ w, Some (tt, {| config := config w; training_arguments := a;
                    image_processor := image_processor w; files := files w;
                    stdout := stdout w; calls := calls w;
                    generator := generator w |}).

Definition set_image_processor (p : ImageProcessor) : NB unit :=
  λ w, Some (tt, {| config := config w; training_arguments := training_arguments w;
                    image_processor := p; files := files w;
                    stdout := stdout w; calls := calls w;
                    generator := generator w |}).

Definition set_files (f : gmap string Artifact) : NB unit :=
  λ w, Some (tt, {| config := config w; training_arguments := training_arguments w;
                    image_processor := image_processor w; files := f;
                    stdout := stdout w; calls := calls w;
                    generator := generator w |}).

Definition set_generator (g : nat) : NB unit :=
  λ w, Some (tt, {| config := config w; training_arguments := training_arguments w;
                    image_processor := image_processor w; files := files w;
                    stdout := stdout w; calls := calls w;
                    generator := g |}).

(** [cfg[key]], with the type the use of the value asks for; a missing
    key or another type raises. *)
Definition get_dataset (cfg : gmap string Value) (key : string) : NB Dataset :=
  match cfg !! key with Some (VDataset d) => nb_ret d | _ => raise end.

Definition get_label2id (cfg : gmap string Value) (key : string)
    : NB (gmap string nat) :=
  match cfg !! key with Some (VLabel2id m) => nb_ret m | _ => raise end.

Definition get_id2label (cfg : gmap string Value) (key : string)
    : NB (gmap nat string) :=
  match cfg !! key with Some (VId2label m) => nb_ret m | _ => raise end.

Definition get_int (cfg : gmap string Value) (key : string) : NB Z :=
  match cfg !! key with Some (VInt n) => nb_ret n | _ => raise end.

Definition get_str (cfg : gmap string Value) (key : string) : NB string :=
  match cfg !! key with Some (VStr s) => nb_ret s | _ => raise end.

Definition get_model (cfg : gmap string Value) (key : string) : NB Model :=
  match cfg !! key with Some (VModel m) => nb_ret m | _ => raise end.

Definition get_processor (cfg : gmap string Value) (key : string)
    : NB ImageProcessor :=
  match cfg !! key with Some (VProcessor p) => nb_ret p | _ => raise end.

(** The [i]-th value of [config.values()]. *)
Definition nth_cfg (i : nat) : NB (gmap string Value) :=
  w <~ get_world ;; from_option (snd <$> config w !! i).

(** [cfg[key] = value] on the [i]-th value of [config.values()]: the
    dictionary object is changed in place. *)
Definition cfg_assign (i : nat) (key : string) (value : Value) : NB unit :=
  w <~ get_world ;;
  entry <~ from_option (config w !! i) ;;
  set_config (<[i := (fst entry, <[key := value]> (snd entry))]> (config w)).

(** [for i in range(start, start + n): body(i)] *)
Fixpoint for_range (start n : nat) (body : nat → NB unit) : NB unit :=
  match n with
  | O => nb_ret tt
  | S n' => body start ;;; for_range (S start) n' body
  end.

(** [for cfg in config.values(): body(cfg)], the body addressing [cfg] by
    its position. *)
Definition for_cfg_in_config_values (body : nat → NB unit) : NB unit :=
  w <~ get_world ;; for_range 0 (length (config w)) body.

(** ** The notebook *)

Section Notebook.

Context `{L : Library}.

(** *** Cell 3 *)

Definition model_checkpoint : string := "google/vit-base-patch16-224-in21k".

(** *** Cell 5 *)

(** [os.scandir(path)] raises when there is no such directory. *)
Definition print_model_size (path : string) : NB unit :=
  w <~ get_world ;;
  dir <~ from_option (files w !! path) ;;
  let size := foldl (λ size f, (size + snd f)%Z) 0%Z (dir_entries dir) in
  print (ModelSizeLine size).

(** The loop of [print_trainable_parameters] on its two counters
    [(parameters, trainable)]:
<<
    for _, p in model.named_parameters():
        parameters += p.numel()
        trainable += p.numel() if p.requires_grad else 0
>> *)
Definition count_loop (counters : Z * Z) (ps : list Param) : Z * Z :=
  foldl (λ counters p,
           ((fst counters + numel p)%Z,
            (snd counters + (if requires_grad p then numel p else 0))%Z))
        counters ps.

Definition count_parameters (model : Model) : Z * Z :=
  count_loop (0%Z, 0%Z) (named_parameters model).

(** The percentage printed divides by [parameters]. *)
Definition print_trainable_parameters (model : Model) (label : string)
    : NB unit :=
  let counters := count_parameters model in
  if decide (fst counters = 0%Z) then raise
  else print (TrainableLine label (snd counters) (fst counters)).

Definition split_dataset (dataset : Dataset) : NB (Dataset * Dataset) :=
  w <~ get_world ;;
  dataset_splits <~ from_option (train_test_split (generator w) (1 # 10) dataset) ;;
  set_generator (snd dataset_splits) ;;;
  nb_ret (fst dataset_splits).

(** *** Cell 14 *)

Definition preprocess_pipeline (processor : ImageProcessor) (image : Image)
    : Tensor :=
  Normalize (image_mean processor) (image_std processor)
    (ToTensor
       (CenterCrop (size_height processor)
          (Resize (size_height processor) image))).

(** [preprocess] refers to the pipeline cell 14 has built from the image
    processor of that moment. *)
Definition preprocess (processor : ImageProcessor) (batch : Batch) : Batch :=
  {| b_image := b_image batch;
     b_label := b_label batch;
     b_pixel_values :=
       Some (map (λ image, preprocess_pipeline processor (pil_convert "RGB" image))
                 (b_image batch)) |}.

Definition with_transform (f : Batch → Batch) (d : Dataset) : Dataset :=
  {| class_names := class_names d; rows := rows d; transform := Some f |}.

(** [cfg[key].set_transform(preprocess)]: the dataset object of the
    dictionary is changed in place. *)
Definition set_transform (i : nat) (key : string) (f : Batch → Batch)
    : NB unit :=
  cfg <~ nth_cfg i ;;
  d <~ get_dataset cfg key ;;
  cfg_assign i key (VDataset (with_transform f d)).

Definition cell_14 : NB unit :=
  w <~ get_world ;;
  let preprocess := preprocess (image_processor w) in
  for_cfg_in_config_values (λ i,
    set_transform i "train_data" preprocess ;;;
    set_transform i "test_data" preprocess).

(** *** Cell 16 *)

(** One element of a dataset with the transform applied. *)
Record Example := {
  e_pixel_values : Tensor;
  e_label        : nat;
}.

Record Collated := {
  pixel_values : list Tensor;
  labels       : list nat;
}.

(** [torch.stack] raises on an empty list. *)
Definition data_collate (examples : list Example) : option Collated :=
  match examples with
  | [] => None
  | _ => Some {| pixel_values := map e_pixel_values examples;
                 labels := map e_label examples |}
  end.

Record EvalPrediction := {
  predictions : list (list Q);
  label_ids   : list nat;
}.

(** The dictionary the metric returns has the one key "accuracy". *)
Definition compute_metrics (eval_pred : EvalPrediction)
    : option (gmap string Q) :=
  predictions ← argmax_axis1 (predictions eval_pred);
  accuracy ← accuracy_compute predictions (label_ids eval_pred);
  Some {[ "accuracy" := accuracy ]}.

Definition get_base_model (label2id : gmap string nat)
    (id2label : gmap nat string) : Model :=
  from_pretrained model_checkpoint label2id id2label.

(** The [LoraConfig] of [build_lora_model]. *)
Definition lora_config : LoraConfig :=
  {| r := 16;
     lora_alpha := 16;
     target_modules := ["query"; "value"];
     lora_dropout := 1 # 10;
     bias := bias_none;
     modules_to_save := ["classifier"] |}.

Definition build_lora_model (label2id : gmap string nat)
    (id2label : gmap nat string) : NB Model :=
  record_call (Call_build_lora_model label2id id2label) ;;;
  let model := get_base_model label2id id2label in
  print_trainable_parameters model "Base model" ;;;
  let config := lora_config in
  let lora_model := get_peft_model model config in
  print_trainable_parameters lora_model "LoRA" ;;;
  nb_ret lora_model.

(** *** The trainer of [transformers], as the notebook drives it *)

Record Trainer := {
  t_model         : Model;
  t_args          : TrainingArguments;
  t_train_dataset : Dataset;
  t_eval_dataset  : Dataset;
  t_tokenizer     : ImageProcessor;
}.

(** [trainer.train()] with [load_best_model_at_end]: the structure of the
    model stays, its weights are the trained ones. *)
Definition trainer_train (t : Trainer) : Trainer :=
  {| t_model :=
       {| config_label2id := config_label2id (t_model t);
          config_id2label := config_id2label (t_model t);
          named_parameters := named_parameters (t_model t);
          peft_config := peft_config (t_model t);
          weights := Trained (weights (t_model t)) (t_args t) (t_train_dataset t) |};
     t_args := t_args t;
     t_train_dataset := t_train_dataset t;
     t_eval_dataset := t_eval_dataset t;
     t_tokenizer := t_tokenizer t |}.

(** The rows of a dataset as the data collator sees them: the transform,
    which must have put the column "pixel_values", applied to the columns
    "image" and "label". *)
Definition examples_of (d : Dataset) : option (list Example) :=
  f ← transform d;
  let batch := f {| b_image := map fst (rows d); b_label := map snd (rows d);
                    b_pixel_values := None |} in
  pixels ← b_pixel_values batch;
  if decide (length pixels = length (b_label batch)) then
    Some (zip_with (λ x y, {| e_pixel_values := x; e_label := y |})
                   pixels (b_label batch))
  else None.

(** [trainer.evaluate(eval_dataset)]: the logits of every row are
    collected (the cutting into batches of [per_device_eval_batch_size]
    rows is not modelled), [compute_metrics] is called once on all of
    them, and each key of its dictionary gets the prefix "eval_". *)
Definition trainer_evaluate (t : Trainer) (eval_dataset : Dataset)
    : option (gmap string Q) :=
  examples ← examples_of eval_dataset;
  batch ← data_collate examples;
  metrics ← compute_metrics
    {| predictions := map (forward_logits (t_model t)) (pixel_values batch);
       label_ids := labels batch |};
  accuracy ← metrics !! "accuracy";
  Some {[ "eval_accuracy" := accuracy ]}.

(** [trainer.save_model(path)] for a model with an adapter: the adapter
    configuration, the trainable parameters and the image processor go to
    the directory [path]. *)
Definition trainer_save_model (t : Trainer) (path : string) : NB unit :=
  adapter <~ from_option (peft_config (t_model t)) ;;
  w <~ get_world ;;
  set_files
    (<[path := {| adapter_config := adapter;
                  adapter_params := adapter_state (t_model t);
                  adapter_weights := weights (t_model t);
                  preprocessor := t_tokenizer t;
                  dir_entries :=
                    written_files (t_model t) (t_tokenizer t) (t_args t) |}]>
       (files w)).

(** *** Cell 18 *)

Definition batch_size : Z := 128.

Definition initial_training_arguments : TrainingArguments :=
  {| output_dir := "./model-checkpoints";
     remove_unused_columns := false;
     eval_strategy := "epoch";
     save_strategy := "epoch";
     learning_rate := 5 # 1000;
     per_device_train_batch_size := batch_size;
     per_device_eval_batch_size := batch_size;
     gradient_accumulation_steps := 4;
     fp16 := true;
     logging_steps := 10;
     load_best_model_at_end := true;
     metric_for_best_model := "accuracy";
     label_names := ["labels"];
     num_train_epochs := None |}.

Definition cell_18 : NB unit :=
  set_training_arguments initial_training_arguments.

(** *** Cell 20 *)

(** [training_arguments.num_train_epochs = epochs]: the one object of
    cell 18 is changed in place. *)
Definition with_num_train_epochs (epochs : Z) (a : TrainingArguments)
    : TrainingArguments :=
  {| output_dir := output_dir a;
     remove_unused_columns := remove_unused_columns a;
     eval_strategy := eval_strategy a;
     save_strategy := save_strategy a;
     learning_rate := learning_rate a;
     per_device_train_batch_size := per_device_train_batch_size a;
     per_device_eval_batch_size := per_device_eval_batch_size a;
     gradient_accumulation_steps := gradient_accumulation_steps a;
     fp16 := fp16 a;
     logging_steps := logging_steps a;
     load_best_model_at_end := load_best_model_at_end a;
     metric_for_best_model := metric_for_best_model a;
     label_names := label_names a;
     num_train_epochs := Some epochs |}.

Definition assign_num_train_epochs (epochs : Z) : NB unit :=
  w <~ get_world ;;
  set_training_arguments (with_num_train_epochs epochs (training_arguments w)).

(** The body of the loop of cell 20 for the [i]-th value of [config].
    The trainer holds the one [training_arguments] object; it is used up
    before the next round assigns to the object again, so the trainer is
    given the value the object has when it is created. *)
Definition train_task (i : nat) : NB unit :=
  cfg <~ nth_cfg i ;;
  epochs <~ get_int cfg "epochs" ;;
  assign_num_train_epochs epochs ;;;
  label2id <~ get_label2id cfg "label2id" ;;
  id2label <~ get_id2label cfg "id2label" ;;
  model <~ build_lora_model label2id id2label ;;
  w <~ get_world ;;
  train_data <~ get_dataset cfg "train_data" ;;
  test_data <~ get_dataset cfg "test_data" ;;
  record_call (Call_Trainer model (training_arguments w) train_data test_data) ;;;
  let trainer :=
    {| t_model := model; t_args := training_arguments w;
       t_train_dataset := train_data; t_eval_dataset := test_data;
       t_tokenizer := image_processor w |} in
  let trainer := trainer_train trainer in
  test_data <~ get_dataset cfg "test_data" ;;
  evaluation_results <~ from_option (trainer_evaluate trainer test_data) ;;
  accuracy <~ from_option (evaluation_results !! "eval_accuracy") ;;
  print (AccuracyLine accuracy) ;;;
  path <~ get_str cfg "path" ;;
  trainer_save_model trainer path ;;;
  path <~ get_str cfg "path" ;;
  print_model_size path.

Definition cell_20 : NB unit := for_cfg_in_config_values train_task.

(** *** Cell 22 *)

(** [PeftModel.from_pretrained] reads the directory [lora_adapter_path]. *)
Definition build_inference_model (label2id : gmap string nat)
    (id2label : gmap nat string) (lora_adapter_path : string) : NB Model :=
  record_call (Call_build_inference_model label2id id2label lora_adapter_path) ;;;
  let model := get_base_model label2id id2label in
  w <~ get_world ;;
  saved <~ from_option (files w !! lora_adapter_path) ;;
  nb_ret (PeftModel_from_pretrained model lora_adapter_path saved).

(** [logits.argmax(-1).item()] raises on an empty row, and
    [id2label[class_index]] on a missing key. *)
Definition predict (image : Image) (model : Model)
    (image_processor : ImageProcessor) : option string :=
  let encoding := processor_call image_processor (pil_convert "RGB" image) in
  let logits := forward_logits model encoding in
  class_index ← argmax logits;
  config_id2label model !! class_index.

(** *** Cell 24 *)

(** [AutoImageProcessor.from_pretrained(path)] on a directory the trainer
    has written. *)
Definition load_image_processor (path : string) : NB ImageProcessor :=
  w <~ get_world ;;
  saved <~ from_option (files w !! path) ;;
  nb_ret (preprocessor saved).

Definition compose_task (i : nat) : NB unit :=
  cfg <~ nth_cfg i ;;
  label2id <~ get_label2id cfg "label2id" ;;
  id2label <~ get_id2label cfg "id2label" ;;
  path <~ get_str cfg "path" ;;
  inference_model <~ build_inference_model label2id id2label path ;;
  cfg_assign i "inference_model" (VModel inference_model) ;;;
  cfg <~ nth_cfg i ;;
  path <~ get_str cfg "path" ;;
  processor <~ load_image_processor path ;;
  cfg_assign i "image_processor" (VProcessor processor).

Definition cell_24 : NB unit := for_cfg_in_config_values compose_task.

(** *** Cells 7, 9, 10 and 12 *)

(** [config[key]] of the outer dictionary. *)
Definition config_item (key : string) : NB (gmap string Value) :=
  w <~ get_world ;;
  from_option (snd <$> (snd <$> list_find (λ entry, fst entry = key) (config w))).

Definition task_cfg (train_data test_data : Dataset)
    (label2id : gmap string nat) (id2label : gmap nat string)
    (epochs : Z) (path : string) : gmap string Value :=
  <["train_data" := VDataset train_data]>
  (<["test_data" := VDataset test_data]>
  (<["label2id" := VLabel2id label2id]>
  (<["id2label" := VId2label id2label]>
  (<["epochs" := VInt epochs]>
  (<["path" := VStr path]> ∅))))).

Definition cells_7_to_12 : NB unit :=
  dataset1 <~ from_option (load_dataset "food101" "train[:10000]") ;;
  dataset2 <~ from_option (load_dataset "microsoft/cats_vs_dogs" "train") ;;
  let dataset2 := rename_column "labels" "label" dataset2 in
  splits1 <~ split_dataset dataset1 ;;
  splits2 <~ split_dataset dataset2 ;;
  let mappings1 := create_label_mappings dataset1 in
  let mappings2 := create_label_mappings dataset2 in
  set_config
    [ ("model1", task_cfg (fst splits1) (snd splits1)
                          (fst mappings1) (snd mappings1) 5 "./lora-model1");
      ("model2", task_cfg (fst splits2) (snd splits2)
                          (fst mappings2) (snd mappings2) 1 "./lora-model2") ] ;;;
  processor <~ from_option (hub_image_processor model_checkpoint) ;;
  set_image_processor processor.

(** *** Cells 26 and 28 *)

Record Sample := {
  sample_image : string;
  sample_model : string;
}.

Definition samples : list Sample :=
  [ {| sample_image := "https://www.allrecipes.com/thmb/AtViolcfVtInHgq_mRtv4tPZASQ=/1500x0/filters:no_upscale():max_bytes(150000):strip_icc()/ALR-187822-baked-chicken-wings-4x3-5c7b4624c8554f3da5aabb7d3a91a209.jpg";
       sample_model := "model1" |};
    {| sample_image := "https://wallpapers.com/images/featured/kitty-cat-pictures-nzlg8fu5sqx1m6qj.jpg";
       sample_model := "model2" |};
    {| sample_image := "https://i.natgeofe.com/n/5f35194b-af37-4f45-a14d-60925b280986/NationalGeographic_2731043_3x4.jpg";
       sample_model := "model2" |};
    {| sample_image := "https://www.simplyrecipes.com/thmb/KE6iMblr3R2Db6oE8HdyVsFSj2A=/1500x0/filters:no_upscale():max_bytes(150000):strip_icc()/__opt__aboutcom__coeus__resources__content_migration__simply_recipes__uploads__2019__09__easy-pepperoni-pizza-lead-3-1024x682-583b275444104ef189d693a64df625da.jpg";
       sample_model := "model1" |} ].

(** [for x in xs: body(x)] *)
Fixpoint for_each {A} (xs : list A) (body : A → NB unit) : NB unit :=
  match xs with
  | [] => nb_ret tt
  | x :: rest => body x ;;; for_each rest body
  end.

(** The body of the loop of cell 28.  The assignment to [image_processor]
    rebinds the global variable of cell 12. *)
Definition predict_sample (sample : Sample) : NB unit :=
  image <~ from_option (fetch_image (sample_image sample)) ;;
  cfg <~ config_item (sample_model sample) ;;
  inference_model <~ get_model cfg "inference_model" ;;
  cfg <~ config_item (sample_model sample) ;;
  processor <~ get_processor cfg "image_processor" ;;
  set_image_processor processor ;;;
  prediction <~ from_option (predict image inference_model processor) ;;
  print (PredictionLine prediction).

Definition cell_28 : NB unit := for_each samples predict_sample.


End Notebook.

(** ** Vocabulary of the statements *)

(** The invariant of a [ClassLabel] feature: its names are pairwise
    distinct (the constructor of the [datasets] library raises on a
    duplicated name). *)
Definition distinct_class_names (dataset : Dataset) : Prop :=
  NoDup (class_names dataset).

(** The label mappings of the entries into [build_lora_model], in order. *)
Definition lora_model_mappings (cs : list Call)
    : list (gmap string nat * gmap nat string) :=
  omap (λ c, match c with
             | Call_build_lora_model label2id id2label => Some (label2id, id2label)
             | _ => None
             end) cs.

(** The label mappings of the entries into [build_inference_model]. *)
Definition inference_model_mappings (cs : list Call)
    : list (gmap string nat * gmap nat string) :=
  omap (λ c, match c with
             | Call_build_inference_model label2id id2label _ =>
                 Some (label2id, id2label)
             | _ => None
             end) cs.

(** The training arguments the trainers were created with, in order. *)
Definition trainer_arguments (cs : list Call) : list TrainingArguments :=
  omap (λ c, match c with
             | Call_Trainer _ args _ _ => Some args
             | _ => None
             end) cs.

(** The accuracies among the printed lines. *)
Definition printed_accuracies (lines : list Line) : list Q :=
  omap (λ l, match l with AccuracyLine a => Some a | _ => None end) lines.

(** The label mappings and the number of epochs of a task's dictionary. *)
Definition cfg_mappings (cfg : gmap string Value)
    : option (gmap string nat * gmap nat string) :=
  match cfg !! "label2id", cfg !! "id2label" with
  | Some (VLabel2id label2id), Some (VId2label id2label) => Some (label2id, id2label)
  | _, _ => None
  end.

Definition cfg_epochs (cfg : gmap string Value) : option Z :=
  match cfg !! "epochs" with
  | Some (VInt n) => Some n
  | _ => None
  end.

(** Two records of training arguments agree on every field but
    [num_train_epochs]. *)
Definition same_but_epochs (a b : TrainingArguments) : Prop :=
  with_num_train_epochs 0 a = with_num_train_epochs 0 b.

(** The state of the loop of cell 20 when it has gone through the first
    [i] tasks, [w0] being the world it started in: the configuration and
    all of the training arguments but the number of epochs are as in [w0];
    each task so far has brought one entry into [build_lora_model] with
    its mappings, one trainer with the arguments of [w0] and its number of
    epochs, and one printed accuracy. *)
Definition trained (w0 : World) (i : nat) (w : World) : Prop :=
  config w = config w0 ∧
  image_processor w = image_processor w0 ∧
  same_but_epochs (training_arguments w) (training_arguments w0) ∧
  ∃ cs accuracies,
    calls w = calls w0 ++ cs ∧
    Forall2 (λ entry m, cfg_mappings (snd entry) = Some m)
            (take i (config w0)) (lora_model_mappings cs) ∧
    Forall2 (λ entry a, ∃ epochs, cfg_epochs (snd entry) = Some epochs ∧
                         a = with_num_train_epochs epochs (training_arguments w0))
            (take i (config w0)) (trainer_arguments cs) ∧
    inference_model_mappings cs = [] ∧
    printed_accuracies (stdout w) = printed_accuracies (stdout w0) ++ accuracies ∧
    length accuracies = i ∧
    Forall (λ a, (0 <= a <= 1)%Q) accuracies.

(** The dictionary of a task after the loop of cell 24 has passed it. *)
Definition composed_cfg (files : gmap string Artifact) (cfg0 cfg : gmap string Value)
    : Prop :=
  ∃ label2id id2label path saved,
    cfg_mappings cfg0 = Some (label2id, id2label) ∧
    cfg0 !! "path" = Some (VStr path) ∧
    files !! path = Some saved ∧
    cfg = <["image_processor" := VProcessor (preprocessor saved)]>
            (<["inference_model" :=
                 VModel (PeftModel_from_pretrained
                           (get_base_model label2id id2label) path saved)]> cfg0).

(** The state of the loop of cell 24 when it has gone through the first
    [i] tasks, [w0] being the world it started in. *)
Definition composed (w0 : World) (i : nat) (w : World) : Prop :=
  length (config w) = length (config w0) ∧
  files w = files w0 ∧
  stdout w = stdout w0 ∧
  training_arguments w = training_arguments w0 ∧
  (∀ j, i ≤ j → config w !! j = config w0 !! j) ∧
  (∀ j entry0, j < i → config w0 !! j = Some entry0 →
     ∃ cfg, config w !! j = Some (fst entry0, cfg) ∧
            composed_cfg (files w0) (snd entry0) cfg) ∧
  ∃ cs,
    calls w = calls w0 ++ cs ∧
    Forall2 (λ entry m, cfg_mappings (snd entry) = Some m)
            (take i (config w0)) (inference_model_mappings cs) ∧
    lora_model_mappings cs = [] ∧
    trainer_arguments cs = [].

(** A parameter is an adapter matrix when its path goes through "lora_A"
    or "lora_B". *)
Definition is_adapter_matrix (p : Param) : bool :=
  bool_decide ("lora_A" ∈ module_path p) || bool_decide ("lora_B" ∈ module_path p).

(** A parameter is an adapter matrix of rank [rank] on a layer named in
    [names]: it is "<...>.<name>.lora_A.default.weight" with [rank] rows
    or "<...>.<name>.lora_B.default.weight" with [rank] columns, under
    "base_model.model". *)
Definition adapter_matrix_on (names : list string) (rank : Z) (p : Param) : bool :=
  match module_path p, reverse (module_path p), shape p with
  | "base_model" :: "model" :: _, "default" :: which :: name :: _, [rows; columns] =>
      bool_decide (name ∈ names) && bool_decide (pname p = "weight") &&
      (bool_decide (which = "lora_A") && bool_decide (rows = rank) ||
       bool_decide (which = "lora_B") && bool_decide (columns = rank))
  | _, _, _ => false
  end.

(** A parameter belongs to the trained copy of the classifier head:
    "base_model.model.classifier.modules_to_save.default.<...>". *)
Definition is_classifier_head (p : Param) : bool :=
  bool_decide (module_path p =
               ["base_model"; "model"; "classifier"; "modules_to_save"; "default"]).

(** The trained copy of a parameter of the classifier of the base model. *)
Definition head_copy (q : Param) : Param :=
  {| module_path := ["base_model"; "model"; "classifier"; "modules_to_save"; "default"];
     pname := pname q; shape := shape q; requires_grad := true |}.

(** The two adapter matrices a linear layer of the base model gets. *)
Definition adapter_of (rank : Z) (q : Param) : list Param :=
  match shape q with
  | [out_features; in_features] =>
      [ {| module_path := "base_model" :: "model" :: module_path q ++ ["lora_A"; "default"];
           pname := "weight"; shape := [rank; in_features]; requires_grad := true |};
        {| module_path := "base_model" :: "model" :: module_path q ++ ["lora_B"; "default"];
           pname := "weight"; shape := [out_features; rank]; requires_grad := true |} ]
  | _ => []
  end.

(** A parameter of the base model is a weight of an attention query or
    value projection. *)
Definition is_query_or_value_weight (q : Param) : bool :=
  selected ["query"; "value"] (module_path q) && bool_decide (pname q = "weight").

(** [q <= x] for every entry [q] of a row of scores. *)
Definition is_maximum (x : Q) (row : list Q) : Prop :=
  Forall (λ q, (q <= x)%Q) row.

(** ** A small instance of the libraries

    Stand-ins with the interfaces of [Library], to run the notebook on
    concrete data: conversion to another mode keeps the band values and
    changes the mode, the splitter cuts off the first tenth (rounded up)
    of the rows, each logit row has one entry per label. *)
Module Demo.

Definition convert (m : string) (image : Image) : Image :=
  if decide (mode image = m) then image
  else {| mode := m; width := width image; height := height image;
          pixels := pixels image |}.

Definition resized (side : nat) (image : Image) : Image :=
  {| mode := mode image; width := side; height := side; pixels := pixels image |}.

Definition to_tensor (image : Image) : Tensor :=
  {| tshape := [3; height image; width image];
     entries := map inject_Z (pixels image) |}.

Definition encode (p : ImageProcessor) (image : Image) : Tensor :=
  to_tensor (resized (size_height p) image).

Definition score (m : Model) (x : Tensor) : list Q :=
  let n := size (config_id2label m) in
  map (λ j, inject_Z (Z.of_nat ((length (entries x) + j) mod n))) (seq 0 n).

Definition split (g : nat) (test_size : Q) (d : Dataset)
    : option (Dataset * Dataset * nat) :=
  let n_test := (length (rows d) + 9) / 10 in
  if decide (n_test < length (rows d)) then
    Some ({| class_names := class_names d; rows := drop n_test (rows d);
             transform := transform d |},
          {| class_names := class_names d; rows := take n_test (rows d);
             transform := transform d |},
          S g)
  else None.

Definition picture (m : string) (k : nat) : Image :=
  {| mode := m; width := 2; height := 1; pixels := replicate k 7%Z |}.

Definition food : Dataset :=
  {| class_names := ["apple_pie"; "chicken_wings"; "pizza"];
     rows := map (λ k, (picture "RGB" k, k mod 3)) (seq 0 20);
     transform := None |}.

Definition pets : Dataset :=
  {| class_names := ["cat"; "dog"];
     rows := map (λ k, (picture "L" k, k mod 2)) (seq 0 10);
     transform := None |}.

Definition hub_dataset (name split : string) : option Dataset :=
  if decide (name = "food101") then Some food
  else if decide (name = "microsoft/cats_vs_dogs") then Some pets
  else None.

Definition vit_processor : ImageProcessor :=
  {| size_height := 224; image_mean := [1 # 2; 1 # 2; 1 # 2];
     image_std := [1 # 2; 1 # 2; 1 # 2] |}.

Definition adapter_file (m : Model) (p : ImageProcessor) (a : TrainingArguments)
    : list (string * Z) :=
  [ ("adapter_config.json", 700%Z);
    ("adapter_model.safetensors",
     (4 * foldr (λ q total, numel q + total) 0 (adapter_state m))%Z) ].

#[export] Instance library : Library :=
  {| pil_convert := convert;
     Resize := resized;
     CenterCrop := resized;
     ToTensor := to_tensor;
     Normalize := λ _ _ t, t;
     processor_call := encode;
     forward_logits := score;
     written_files := adapter_file;
     train_test_split := split;
     rename_column := λ _ _ d, d;
     load_dataset := hub_dataset;
     hub_image_processor := λ _, Some vit_processor;
     fetch_image := λ url, Some (picture "RGBA" (String.length url)) |}.

Definition empty_world : World :=
  {| config := []; training_arguments := initial_training_arguments;
     image_processor := vit_processor; files := ∅; stdout := []; calls := [];
     generator := 0 |}.

(** The world after the cells that load the data, set the transforms and
    create the training arguments. *)
Definition prepared_world : World :=
  match (cells_7_to_12 ;;; cell_14 ;;; cell_18) empty_world with
  | Some (_, w) => w
  | None => empty_world
  end.

(** The worlds after cell 20 and after cell 24. *)
Definition trained_world : World :=
  match cell_20 prepared_world with
  | Some (_, w) => w
  | None => prepared_world
  end.

Definition composed_world : World :=
  match cell_24 trained_world with
  | Some (_, w) => w
  | None => trained_world
  end.

(** The inference model composed for the food task. *)
Definition food_model : Model :=
  match build_inference_model (fst (create_label_mappings food))
          (snd (create_label_mappings food)) "./lora-model1" trained_world with
  | Some (model, _) => model
  | None => get_base_model ∅ ∅
  end.

(** An evaluation batch of two rows over two classes. *)
Definition two_rows : EvalPrediction :=
  {| predictions := [[1 # 4; 3 # 4]; [2 # 3; 1 # 3]]; label_ids := [1; 1] |}.

End Demo.

(** ** Vocabulary of the further properties *)

(** What the loops read from a task's dictionary. *)
Record Task := {
  task_epochs   : Z;
  task_label2id : gmap string nat;
  task_id2label : gmap nat string;
  task_train    : Dataset;
  task_test     : Dataset;
  task_path     : string;
}.

Definition as_int (v : Value) : option Z :=
  match v with VInt n => Some n | _ => None end.

Definition as_label2id (v : Value) : option (gmap string nat) :=
  match v with VLabel2id m => Some m | _ => None end.

Definition as_id2label (v : Value) : option (gmap nat string) :=
  match v with VId2label m => Some m | _ => None end.

Definition as_dataset (v : Value) : option Dataset :=
  match v with VDataset d => Some d | _ => None end.

Definition as_str (v : Value) : option string :=
  match v with VStr s => Some s | _ => None end.

(** The six entries the loop of cell 20 needs, each of the type its use
    asks for. *)
Definition read_task (cfg : gmap string Value) : option Task :=
  epochs ← cfg !! "epochs" ≫= as_int;
  label2id ← cfg !! "label2id" ≫= as_label2id;
  id2label ← cfg !! "id2label" ≫= as_id2label;
  train ← cfg !! "train_data" ≫= as_dataset;
  test ← cfg !! "test_data" ≫= as_dataset;
  path ← cfg !! "path" ≫= as_str;
  Some {| task_epochs := epochs; task_label2id := label2id;
          task_id2label := id2label; task_train := train; task_test := test;
          task_path := path |}.

(** The model a task is trained on, and the trainer after training, when
    the training arguments are [args] before the assignment of the epochs
    and the global image processor is [processor]. *)
Definition task_model (t : Task) : Model :=
  get_peft_model (get_base_model (task_label2id t) (task_id2label t)) lora_config.

Definition task_trainer (args : TrainingArguments) (processor : ImageProcessor)
    (t : Task) : Trainer :=
  trainer_train
    {| t_model := task_model t;
       t_args := with_num_train_epochs (task_epochs t) args;
       t_train_dataset := task_train t;
       t_eval_dataset := task_test t;
       t_tokenizer := processor |}.

(** The directory the trainer of a task writes. *)
Definition task_artifact `{L : Library} (tr : Trainer) : Artifact :=
  {| adapter_config := lora_config;
     adapter_params := adapter_state (t_model tr);
     adapter_weights := weights (t_model tr);
     preprocessor := t_tokenizer tr;
     dir_entries := written_files (t_model tr) (t_tokenizer tr) (t_args tr) |}.

(** The four lines one round of the loop of cell 20 prints. *)
Definition task_lines `{L : Library} (tr : Trainer) (t : Task) (accuracy : Q)
    : list Line :=
  [ TrainableLine "Base model"
      (snd (count_parameters (get_base_model (task_label2id t) (task_id2label t))))
      (fst (count_parameters (get_base_model (task_label2id t) (task_id2label t))));
    TrainableLine "LoRA" (snd (count_parameters (task_model t)))
                         (fst (count_parameters (task_model t)));
    AccuracyLine accuracy;
    ModelSizeLine (foldl (λ size f, (size + snd f)%Z) 0%Z
                         (dir_entries (task_artifact tr))) ].

(** The world after one round of the loop of cell 20 on the task [t],
    the evaluation having given [accuracy]. *)
Definition after_task `{L : Library} (w : World) (t : Task) (accuracy : Q) : World :=
  let tr := task_trainer (training_arguments w) (image_processor w) t in
  {| config := config w;
     training_arguments := with_num_train_epochs (task_epochs t) (training_arguments w);
     image_processor := image_processor w;
     files := <[task_path t := task_artifact tr]> (files w);
     stdout := stdout w ++ task_lines tr t accuracy;
     calls := calls w ++
       [ Call_build_lora_model (task_label2id t) (task_id2label t);
         Call_Trainer (task_model t)
                      (with_num_train_epochs (task_epochs t) (training_arguments w))
                      (task_train t) (task_test t) ];
     generator := generator w |}.

(** The accuracy the evaluation of a task reports, if it does not raise. *)
Definition task_accuracy `{L : Library} (w : World) (t : Task) : option Q :=
  results ← trainer_evaluate
              (task_trainer (training_arguments w) (image_processor w) t)
              (task_test t);
  results !! "eval_accuracy".

(** One round of the loop of cell 20, as a function. *)
Definition train_task_result `{L : Library} (i : nat) (w : World)
    : option (unit * World) :=
  entry ← config w !! i;
  t ← read_task (snd entry);
  accuracy ← task_accuracy w t;
  Some (tt, after_task w t accuracy).

(** The loop of cell 20 over the tasks [ts], as a function: a task whose
    evaluation raises stops it. *)
Fixpoint train_tasks `{L : Library} (w : World) (ts : list Task) : option World :=
  match ts with
  | [] => Some w
  | t :: rest =>
      accuracy ← task_accuracy w t;
      train_tasks (after_task w t accuracy) rest
  end.

(** The tasks of a configuration map, if every dictionary has the six
    entries. *)
Definition read_tasks (entries : list (string * gmap string Value))
    : option (list Task) :=
  mapM (λ entry, read_task (snd entry)) entries.

(** One round of the loop of cell 14 with the transform [f], as a
    function. *)
Definition transform_task_result (f : Batch → Batch) (i : nat) (w : World)
    : option (unit * World) :=
  entry ← config w !! i;
  train ← snd entry !! "train_data" ≫= as_dataset;
  test ← snd entry !! "test_data" ≫= as_dataset;
  Some (tt, {| config :=
                 <[i := (fst entry,
                         <["test_data" := VDataset (with_transform f test)]>
                           (<["train_data" := VDataset (with_transform f train)]>
                              (snd entry)))]> (config w);
               training_arguments := training_arguments w;
               image_processor := image_processor w; files := files w;
               stdout := stdout w; calls := calls w; generator := generator w |}).

(** One round of the loop of cell 24, as a function. *)
Definition compose_task_result (i : nat) (w : World) : option (unit * World) :=
  entry ← config w !! i;
  label2id ← snd entry !! "label2id" ≫= as_label2id;
  id2label ← snd entry !! "id2label" ≫= as_id2label;
  path ← snd entry !! "path" ≫= as_str;
  saved ← files w !! path;
  Some (tt, {| config :=
                 <[i := (fst entry,
                         <["image_processor" := VProcessor (preprocessor saved)]>
                           (<["inference_model" :=
                                VModel (PeftModel_from_pretrained
                                          (get_base_model label2id id2label)
                                          path saved)]> (snd entry)))]> (config w);
               training_arguments := training_arguments w;
               image_processor := image_processor w; files := files w;
               stdout := stdout w;
               calls := calls w ++ [Call_build_inference_model label2id id2label path];
               generator := generator w |}).

(** The calls one round of the loop of cell 20 makes. *)
Definition task_calls (args : TrainingArguments) (t : Task) : list Call :=
  [ Call_build_lora_model (task_label2id t) (task_id2label t);
    Call_Trainer (task_model t) (with_num_train_epochs (task_epochs t) args)
                 (task_train t) (task_test t) ].

(** The directories after the tasks [ts] have been trained and saved one
    after the other: a later task overwrites an earlier one with the same
    path. *)
Definition saved_files `{L : Library} (args : TrainingArguments)
    (processor : ImageProcessor) (ts : list Task) (fs : gmap string Artifact)
    : gmap string Artifact :=
  foldl (λ fs t, <[task_path t := task_artifact (task_trainer args processor t)]> fs)
        fs ts.

(** The number of epochs left in the training arguments after the tasks
    [ts]: that of the last one. *)
Definition final_arguments (args : TrainingArguments) (ts : list Task)
    : TrainingArguments :=
  match last ts with
  | Some t => with_num_train_epochs (task_epochs t) args
  | None => args
  end.

(** What the loop of cell 14 needs of a task's dictionary. *)
Definition has_splits (cfg : gmap string Value) : Prop :=
  ∃ train test,
    cfg !! "train_data" = Some (VDataset train) ∧
    cfg !! "test_data" = Some (VDataset test).

(** How the loop of cell 14 with the transform [f] changes a task's
    dictionary [cfg0] into [cfg1]: the two datasets get the transform,
    nothing else changes. *)
Definition transformed_cfg (f : Batch → Batch) (cfg0 cfg1 : gmap string Value)
    : Prop :=
  ∃ train test,
    cfg0 !! "train_data" = Some (VDataset train) ∧
    cfg0 !! "test_data" = Some (VDataset test) ∧
    cfg1 = <["test_data" := VDataset (with_transform f test)]>
             (<["train_data" := VDataset (with_transform f train)]> cfg0).

(** The state of the loop of cell 14 when it has gone through the first
    [i] tasks, [w0] being the world it started in. *)
Definition transformed (f : Batch → Batch) (w0 : World) (i : nat) (w : World)
    : Prop :=
  training_arguments w = training_arguments w0 ∧
  image_processor w = image_processor w0 ∧
  files w = files w0 ∧
  stdout w = stdout w0 ∧
  calls w = calls w0 ∧
  generator w = generator w0 ∧
  length (config w) = length (config w0) ∧
  (∀ j, i ≤ j → config w !! j = config w0 !! j) ∧
  Forall2 (λ e0 e1, fst e1 = fst e0 ∧ transformed_cfg f (snd e0) (snd e1))
          (take i (config w0)) (take i (config w)).




(** The four lines of a task in the output of cell 20, with the counts
    written out: [n] is the number of labels of the task, [bytes] the size
    of its directory. *)
Definition report_lines (n : Z) (accuracy : Q) (bytes : Z) : list Line :=
  [ TrainableLine "Base model" (85798656 + 769 * n) (85798656 + 769 * n);
    TrainableLine "LoRA" (589824 + 769 * n) (86388480 + 2 * (769 * n));
    AccuracyLine accuracy;
    ModelSizeLine bytes ].

Definition task_report `{L : Library} (args : TrainingArguments)
    (processor : ImageProcessor) (t : Task) (accuracy : Q) : list Line :=
  report_lines
    (Z.of_nat (size (task_id2label t))) accuracy
    (foldr (λ f total, snd f + total)%Z 0%Z
           (written_files (t_model (task_trainer args processor t)) processor
                          (with_num_train_epochs (task_epochs t) args))).


Definition as_model (v : Value) : option Model :=
  match v with VModel m => Some m | _ => None end.

Definition as_processor (v : Value) : option ImageProcessor :=
  match v with VProcessor p => Some p | _ => None end.

(** What the loop of cell 28 looks up for a sample and what it predicts:
    the image behind the URL, the inference model and the image processor
    of the task the sample names, and the label [predict] returns. *)
Definition sample_prediction `{L : Library}
    (entries : list (string * gmap string Value)) (sample : Sample)
    : option (ImageProcessor * string) :=
  image ← fetch_image (sample_image sample);
  found ← list_find (λ entry, fst entry = sample_model sample) entries;
  model ← snd (snd found) !! "inference_model" ≫= as_model;
  processor ← snd (snd found) !! "image_processor" ≫= as_processor;
  label ← predict image model processor;
  Some (processor, label).

(** The loop of cell 28 over the samples [xs], as a function. *)
Fixpoint predict_samples `{L : Library} (xs : list Sample) (w : World)
    : option World :=
  match xs with
  | [] => Some w
  | x :: rest =>
      prediction ← sample_prediction (config w) x;
      predict_samples rest
        {| config := config w; training_arguments := training_arguments w;
           image_processor := fst prediction; files := files w;
           stdout := stdout w ++ [PredictionLine (snd prediction)];
           calls := calls w; generator := generator w |}
  end.






(** ** More worlds of the demonstration library *)

Module DemoCells.

(** The worlds after cells 7 to 12, after cell 14 and after cell 28. *)
Definition loaded_world : World :=
  match @cells_7_to_12 Demo.library Demo.empty_world with
  | Some (_, w) => w
  | None => Demo.empty_world
  end.

Definition transformed_world : World :=
  match @cell_14 Demo.library loaded_world with
  | Some (_, w) => w
  | None => loaded_world
  end.

Definition finished_world : World :=
  match @cell_28 Demo.library Demo.composed_world with
  | Some (_, w) => w
  | None => Demo.composed_world
  end.



(** A model with three parameters, one of them trainable. *)
Definition small_model : Model :=
  {| config_label2id := ∅; config_id2label := ∅;
     named_parameters :=
       [ {| module_path := ["a"]; pname := "weight"; shape := [2; 3]%Z;
            requires_grad := false |};
         {| module_path := ["a"]; pname := "bias"; shape := [2]%Z;
            requires_grad := true |};
         {| module_path := ["b"]; pname := "weight"; shape := []%Z;
            requires_grad := false |} ];
     peft_config := None; weights := Pretrained "small" |}.

End DemoCells.

(** * Part II: properties *)

(** ** Notebook code: how a successful run decomposes *)

Section Runs.

Context {A B : Type}.

Lemma nb_bind_Some (m : NB A) (k : A → NB B) w r :
  nb_bind m k w = Some r → ∃ a w', m w = Some (a, w') ∧ k a w' = Some r.
Proof.
  unfold nb_bind. destruct (m w) as [[a w']|]; [eauto | discriminate].
Qed.

Lemma from_option_Some (o : option A) w r :
  from_option o w = Some r → ∃ a, o = Some a ∧ r = (a, w).
Proof.
  destruct o as [a|]; simpl; [|discriminate].
  unfold nb_ret. intros [= <-]. eauto.
Qed.

End Runs.

Lemma get_dataset_Some cfg key w r :
  get_dataset cfg key w = Some r → ∃ d, cfg !! key = Some (VDataset d) ∧ r = (d, w).
Proof.
  unfold get_dataset. destruct (cfg !! key) as [[]|]; try discriminate.
  unfold nb_ret. intros [= <-]. eauto.
Qed.

Lemma get_label2id_Some cfg key w r :
  get_label2id cfg key w = Some r → ∃ m, cfg !! key = Some (VLabel2id m) ∧ r = (m, w).
Proof.
  unfold get_label2id. destruct (cfg !! key) as [[]|]; try discriminate.
  unfold nb_ret. intros [= <-]. eauto.
Qed.

Lemma get_id2label_Some cfg key w r :
  get_id2label cfg key w = Some r → ∃ m, cfg !! key = Some (VId2label m) ∧ r = (m, w).
Proof.
  unfold get_id2label. destruct (cfg !! key) as [[]|]; try discriminate.
  unfold nb_ret. intros [= <-]. eauto.
Qed.

Lemma get_int_Some cfg key w r :
  get_int cfg key w = Some r → ∃ n, cfg !! key = Some (VInt n) ∧ r = (n, w).
Proof.
  unfold get_int. destruct (cfg !! key) as [[]|]; try discriminate.
  unfold nb_ret. intros [= <-]. eauto.
Qed.

Lemma get_str_Some cfg key w r :
  get_str cfg key w = Some r → ∃ s, cfg !! key = Some (VStr s) ∧ r = (s, w).
Proof.
  unfold get_str. destruct (cfg !! key) as [[]|]; try discriminate.
  unfold nb_ret. intros [= <-]. eauto.
Qed.

Lemma nth_cfg_Some i w r :
  nth_cfg i w = Some r → ∃ entry, config w !! i = Some entry ∧ r = (snd entry, w).
Proof.
  unfold nth_cfg, nb_bind, get_world. intros H.
  apply from_option_Some in H as (cfg & H & ->).
  destruct (config w !! i) as [entry|]; [|discriminate].
  injection H as <-. eauto.
Qed.

(** One step of a run: the first action of [H] is split off and, when it
    is one of the elementary ones, replaced by what it says. *)
Ltac nb_step H :=
  let a := fresh "a" in
  let w := fresh "w" in
  let E := fresh "E" in
  lazymatch type of H with
  | nb_bind _ _ _ = Some _ => apply nb_bind_Some in H as (a & w & E & H)
  end;
  lazymatch type of E with
  | get_dataset _ _ _ = _ => apply get_dataset_Some in E as (? & ? & [= -> ->])
  | get_label2id _ _ _ = _ => apply get_label2id_Some in E as (? & ? & [= -> ->])
  | get_id2label _ _ _ = _ => apply get_id2label_Some in E as (? & ? & [= -> ->])
  | get_int _ _ _ = _ => apply get_int_Some in E as (? & ? & [= -> ->])
  | get_str _ _ _ = _ => apply get_str_Some in E as (? & ? & [= -> ->])
  | nth_cfg _ _ = _ => apply nth_cfg_Some in E as (? & ? & [= -> ->])
  | from_option _ _ = _ => apply from_option_Some in E as (? & ? & [= -> ->])
  | get_world _ = _ => injection E as <- <-
  | print _ _ = _ => injection E as <- <-
  | record_call _ _ = _ => injection E as <- <-
  | set_config _ _ = _ => injection E as <- <-
  | set_training_arguments _ _ = _ => injection E as <- <-
  | set_image_processor _ _ = _ => injection E as <- <-
  | set_files _ _ = _ => injection E as <- <-
  | set_generator _ _ = _ => injection E as <- <-
  | _ => idtac
  end.

(** ** create_label_mappings *)

Section LabelMappings.

Implicit Types (names : list string) (i j : nat) (label : string).

Lemma label_loop_id2label names : ∀ i acc j,
  snd (label_loop i names acc) !! j =
    if decide (i ≤ j < i + length names) then names !! (j - i)
    else snd acc !! j.
Proof.
  induction names as [|label rest IH]; intros i acc j; simpl.
  - case_decide; [lia | done].
  - rewrite IH. simpl.
    destruct (decide (i = j)) as [->|Hne].
    + replace (j - j) with 0 by lia.
      rewrite decide_False by lia. rewrite decide_True by lia.
      by rewrite lookup_insert_eq.
    + rewrite lookup_insert_ne by done.
      repeat case_decide; try lia; try done.
      replace (j - i) with (S (j - S i)) by lia. done.
Qed.

Lemma label_loop_label2id_fresh names : ∀ i acc label,
  label ∉ names →
  fst (label_loop i names acc) !! label = fst acc !! label.
Proof.
  induction names as [|l rest IH]; intros i acc label Hnot; simpl; [done|].
  apply not_elem_of_cons in Hnot as [Hne Hrest].
  rewrite IH by done. simpl. by rewrite lookup_insert_ne.
Qed.

Lemma label_loop_label2id names : ∀ i acc k label,
  NoDup names → names !! k = Some label →
  fst (label_loop i names acc) !! label = Some (i + k).
Proof.
  induction names as [|l rest IH]; intros i acc k label Hnd Hk; [done|].
  apply NoDup_cons in Hnd as [Hl Hnd]. simpl.
  destruct k as [|k]; simpl in Hk.
  - injection Hk as ->.
    rewrite label_loop_label2id_fresh by done. simpl.
    rewrite lookup_insert_eq. f_equal. lia.
  - rewrite (IH _ _ k label) by done. f_equal. lia.
Qed.

(** Without the distinctness of the names, a later duplicate overwrites
    the earlier entry of [label2id] (dictionary assignment). *)
Lemma label_loop_label2id_dom names : ∀ i acc label k,
  fst (label_loop i names acc) !! label = Some k →
  fst acc !! label = Some k ∨ (i ≤ k ∧ names !! (k - i) = Some label).
Proof.
  induction names as [|l rest IH]; intros i acc label k H; simpl in H.
  - by left.
  - apply IH in H as [H|[Hle H]]; simpl in H.
    + destruct (decide (l = label)) as [->|Hne].
      * rewrite lookup_insert_eq in H. injection H as <-.
        right. split; [lia|]. by replace (i - i) with 0 by lia.
      * rewrite lookup_insert_ne in H by done. by left.
    + right. split; [lia|].
      by replace (k - i) with (S (k - S i)) by lia.
Qed.

End LabelMappings.

(** C4. For every dataset (its class names being pairwise distinct, as a
    [ClassLabel] feature has them), [create_label_mappings] returns two
    dictionaries that are inverse to each other: [label2id] sends the
    [i]-th class name to [i], [id2label] sends [i] back to that name, for
    every [i] below the number of class names and for no other key; hence
    [id2label[label2id[name]] = name] for every class name and
    [label2id[id2label[i]] = i] for every assigned id. *)
Theorem create_label_mappings_inverse (dataset : Dataset)
    (Hdistinct : distinct_class_names dataset) :
  let '(label2id, id2label) := create_label_mappings dataset in
  (∀ i name, class_names dataset !! i = Some name →
     label2id !! name = Some i ∧ id2label !! i = Some name) ∧
  (∀ i name, id2label !! i = Some name ↔ class_names dataset !! i = Some name) ∧
  (∀ name i, label2id !! name = Some i ↔ class_names dataset !! i = Some name) ∧
  (∀ name, name ∈ class_names dataset →
     ∃ i, label2id !! name = Some i ∧ id2label !! i = Some name) ∧
  (∀ i name, id2label !! i = Some name → label2id !! name = Some i).
Proof.
  unfold create_label_mappings.
  destruct (label_loop 0 (class_names dataset) (∅, ∅)) as [label2id id2label] eqn:E.
  assert (Hid : ∀ i, id2label !! i = class_names dataset !! i).
  { intros i. change id2label with (snd (label2id, id2label)). rewrite <- E.
    rewrite label_loop_id2label. simpl. rewrite Nat.sub_0_r.
    case_decide; [done|]. rewrite lookup_empty. symmetry.
    apply lookup_ge_None. lia. }
  assert (Hl : ∀ i name, class_names dataset !! i = Some name →
                         label2id !! name = Some i).
  { intros i name Hi. change label2id with (fst (label2id, id2label)).
    rewrite <- E. by rewrite (label_loop_label2id _ 0 _ i name). }
  assert (Hl' : ∀ name i, label2id !! name = Some i →
                          class_names dataset !! i = Some name).
  { intros name i Hi. change label2id with (fst (label2id, id2label)) in Hi.
    rewrite <- E in Hi. apply label_loop_label2id_dom in Hi as [Hi|[_ Hi]].
    - simpl in Hi. by rewrite lookup_empty in Hi.
    - by rewrite Nat.sub_0_r in Hi. }
  repeat split.
  - by apply Hl.
  - by rewrite Hid.
  - by rewrite Hid.
  - by rewrite Hid.
  - apply Hl'.
  - apply Hl.
  - intros name Hin. apply list_elem_of_lookup in Hin as [i Hi].
    exists i. split; [by apply Hl | by rewrite Hid].
  - intros i name Hi. apply Hl. by rewrite <- Hid.
Qed.

Lemma create_label_mappings_inverse_witness :
  create_label_mappings Demo.pets
  = ({[ "cat" := 0; "dog" := 1 ]}, {[ 0 := "cat"; 1 := "dog" ]}) ∧
  let '(label2id, id2label) := create_label_mappings Demo.pets in
  ∀ i name, id2label !! i = Some name → label2id !! name = Some i.
Proof.
  assert (Hdistinct : distinct_class_names Demo.pets).
  { unfold distinct_class_names. apply (bool_decide_unpack _). vm_compute. exact I. }
  split; [vm_compute; reflexivity|].
  pose proof (create_label_mappings_inverse Demo.pets Hdistinct) as H.
  destruct (create_label_mappings Demo.pets) as [label2id id2label].
  apply H.
Defined.

(** ** argmax and the accuracy metric *)

Section Metrics.

Implicit Types (xs row : list Q) (k : nat).

Lemma argmax_from_spec xs : ∀ best_i best i,
  ∃ v, (argmax_from best_i best i xs = best_i ∧ v = best ∨
        i ≤ argmax_from best_i best i xs ∧
        xs !! (argmax_from best_i best i xs - i) = Some v) ∧
       (best <= v)%Q ∧ is_maximum v xs.
Proof.
  induction xs as [|x rest IH]; intros best_i best i; simpl.
  - exists best. split; [by left|]. split; [apply Qle_refl | constructor].
  - destruct (Qlt_le_dec best x) as [Hlt|Hle].
    + destruct (IH i x (S i)) as (v & Hk & Hv & Hmax).
      exists v. split; [|split].
      * right. destruct Hk as [[-> ->]|[Hge Hk]].
        -- split; [lia|]. by rewrite Nat.sub_diag.
        -- split; [lia|].
           by replace (argmax_from i x (S i) rest - i)
             with (S (argmax_from i x (S i) rest - S i)) by lia.
      * apply Qlt_le_weak. eapply Qlt_le_trans; eauto.
      * constructor; done.
    + destruct (IH best_i best (S i)) as (v & Hk & Hv & Hmax).
      exists v. split; [|split].
      * destruct Hk as [[Hk ->]|[Hge Hk]]; [by left|].
        right. split; [lia|].
        by replace (argmax_from best_i best (S i) rest - i)
          with (S (argmax_from best_i best (S i) rest - S i)) by lia.
      * done.
      * constructor; [|done]. eapply Qle_trans; eauto.
Qed.

(** The index [argmax] returns is in range and holds a maximal score. *)
Lemma argmax_Some xs k :
  argmax xs = Some k → ∃ v, xs !! k = Some v ∧ is_maximum v xs.
Proof.
  destruct xs as [|x rest]; simpl; [discriminate|]. intros [= <-].
  destruct (argmax_from_spec rest 0 x 1) as (v & Hk & Hv & Hmax).
  exists v. split; [|by constructor].
  destruct Hk as [[-> ->]|[Hge Hk]]; [done|].
  by replace (argmax_from 0 x 1 rest) with (S (argmax_from 0 x 1 rest - 1)) by lia.
Qed.


Lemma argmax_None xs : argmax xs = None → xs = [].
Proof. by destruct xs. Qed.


Lemma count_equal_le (predictions references : list nat) :
  count_equal predictions references ≤ length references.
Proof.
  unfold count_equal. etrans; [apply length_filter|].
  rewrite length_zip. lia.
Qed.

(** The accuracy is the number of hits over the number of references, a
    rational between 0 and 1. *)
Lemma accuracy_compute_Some (predictions references : list nat) accuracy :
  accuracy_compute predictions references = Some accuracy →
  length predictions = length references ∧ references ≠ [] ∧
  accuracy = (Z.of_nat (count_equal predictions references)
              # Pos.of_nat (length references)) ∧
  (0 <= accuracy <= 1)%Q.
Proof.
  unfold accuracy_compute. case_decide as Hlen; [|discriminate].
  pose proof (count_equal_le predictions references) as Hle.
  destruct references as [|y references]; [discriminate|].
  set (n := length (y :: references)) in *. intros [= <-].
  assert (Hn : Z.pos (Pos.of_nat n) = Z.of_nat n).
  { unfold n. simpl length. rewrite <- Pos.of_nat_succ.
    by rewrite Zpos_P_of_succ_nat, Nat2Z.inj_succ. }
  repeat split; try done.
  - unfold Qle. simpl. lia.
  - unfold Qle. simpl. rewrite Hn. lia.
Qed.


Lemma compute_metrics_Some eval_pred metrics :
  compute_metrics eval_pred = Some metrics →
  ∃ classes accuracy,
    argmax_axis1 (predictions eval_pred) = Some classes ∧
    accuracy_compute classes (label_ids eval_pred) = Some accuracy ∧
    metrics = {[ "accuracy" := accuracy ]}.
Proof.
  unfold compute_metrics. intros H.
  destruct (argmax_axis1 (predictions eval_pred)) as [classes|]; [|discriminate].
  simpl in H.
  destruct (accuracy_compute classes (label_ids eval_pred)) as [accuracy|] eqn:Ha;
    [|discriminate].
  simpl in H. injection H as <-. by eexists _, _.
Qed.

End Metrics.

Section Evaluation.

Context `{L : Library}.

(** Whatever [trainer.evaluate] returns has the one entry "eval_accuracy",
    a number between 0 and 1. *)
Lemma trainer_evaluate_Some t eval_dataset results :
  trainer_evaluate t eval_dataset = Some results →
  ∃ accuracy, results = {[ "eval_accuracy" := accuracy ]} ∧
              (0 <= accuracy <= 1)%Q.
Proof.
  unfold trainer_evaluate. intros H.
  destruct (examples_of eval_dataset) as [examples|]; [|discriminate].
  simpl in H. destruct (data_collate examples) as [batch|]; [|discriminate].
  simpl in H.
  destruct (compute_metrics _) as [metrics|] eqn:Hm; [|discriminate].
  simpl in H. apply compute_metrics_Some in Hm as (classes & accuracy & _ & Hacc & ->).
  rewrite lookup_singleton_eq in H. simpl in H. injection H as <-.
  exists accuracy. split; [done|].
  by apply accuracy_compute_Some in Hacc as (_ & _ & _ & ?).
Qed.

End Evaluation.

(** ** The loops of cells 20 and 24 *)

(** The parameter lists are long: they are not unfolded when a run is
    simplified. *)
Arguments count_parameters : simpl never.
Arguments get_peft_model : simpl never.
Arguments get_base_model : simpl never.
Arguments from_pretrained : simpl never.
Arguments vit_base_parameters : simpl never.
Arguments inject_adapter : simpl never.
Arguments trainer_evaluate : simpl never.
Arguments trainer_train : simpl never.
Opaque count_parameters get_peft_model get_base_model trainer_evaluate trainer_train.

Section Loops.

Context `{L : Library}.

Lemma print_trainable_parameters_run model label w r :
  print_trainable_parameters model label w = Some r →
  r = (tt, {| config := config w; training_arguments := training_arguments w;
              image_processor := image_processor w; files := files w;
              stdout := stdout w ++
                [TrainableLine label (snd (count_parameters model))
                               (fst (count_parameters model))];
              calls := calls w; generator := generator w |}).
Proof.
  unfold print_trainable_parameters. case_decide; [discriminate|].
  unfold print. by intros [= <-].
Qed.

Lemma build_lora_model_run label2id id2label w model w' :
  build_lora_model label2id id2label w = Some (model, w') →
  model = get_peft_model (get_base_model label2id id2label) lora_config ∧
  config w' = config w ∧
  training_arguments w' = training_arguments w ∧
  image_processor w' = image_processor w ∧
  files w' = files w ∧
  generator w' = generator w ∧
  calls w' = calls w ++ [Call_build_lora_model label2id id2label] ∧
  printed_accuracies (stdout w') = printed_accuracies (stdout w).
Proof.
  unfold build_lora_model. intros H.
  nb_step H. nb_step H. apply print_trainable_parameters_run in E as [= ->].
  nb_step H. apply print_trainable_parameters_run in E as [= ->].
  injection H as <- <-. subst. simpl. repeat split; try done.
  unfold printed_accuracies. rewrite !omap_app. simpl. by rewrite !app_nil_r.
Qed.

Lemma trainer_save_model_run t path w u w' :
  trainer_save_model t path w = Some (u, w') →
  config w' = config w ∧
  training_arguments w' = training_arguments w ∧
  image_processor w' = image_processor w ∧
  calls w' = calls w ∧
  stdout w' = stdout w ∧
  ∃ adapter,
    peft_config (t_model t) = Some adapter ∧
    files w' =
      <[path := {| adapter_config := adapter;
                   adapter_params := adapter_state (t_model t);
                   adapter_weights := weights (t_model t);
                   preprocessor := t_tokenizer t;
                   dir_entries :=
                     written_files (t_model t) (t_tokenizer t) (t_args t) |}]>
        (files w).
Proof.
  unfold trainer_save_model. intros H.
  nb_step H. nb_step H. injection H as _ <-. simpl. eauto 10.
Qed.

Lemma print_model_size_run path w u w' :
  print_model_size path w = Some (u, w') →
  config w' = config w ∧
  training_arguments w' = training_arguments w ∧
  image_processor w' = image_processor w ∧
  calls w' = calls w ∧
  files w' = files w ∧
  printed_accuracies (stdout w') = printed_accuracies (stdout w).
Proof.
  unfold print_model_size. intros H.
  nb_step H. nb_step H. injection H as _ <-. simpl. repeat split; try done.
  unfold printed_accuracies. rewrite omap_app. simpl. by rewrite app_nil_r.
Qed.

(** What one round of the loop of cell 20 does to the world. *)
Lemma train_task_run i w w' :
  train_task i w = Some (tt, w') →
  ∃ key cfg label2id id2label epochs train_data test_data results accuracy,
    config w !! i = Some (key, cfg) ∧
    cfg_mappings cfg = Some (label2id, id2label) ∧
    cfg_epochs cfg = Some epochs ∧
    trainer_evaluate
      (trainer_train
         {| t_model := get_peft_model (get_base_model label2id id2label) lora_config;
            t_args := with_num_train_epochs epochs (training_arguments w);
            t_train_dataset := train_data; t_eval_dataset := test_data;
            t_tokenizer := image_processor w |})
      test_data = Some results ∧
    results !! "eval_accuracy" = Some accuracy ∧
    config w' = config w ∧
    training_arguments w' = with_num_train_epochs epochs (training_arguments w) ∧
    image_processor w' = image_processor w ∧
    calls w' = calls w ++
      [ Call_build_lora_model label2id id2label;
        Call_Trainer (get_peft_model (get_base_model label2id id2label) lora_config)
                     (with_num_train_epochs epochs (training_arguments w))
                     train_data test_data ] ∧
    printed_accuracies (stdout w') = printed_accuracies (stdout w) ++ [accuracy].
Proof.
  unfold train_task. intros H.
  nb_step H. destruct x as [key cfg]. simpl in H.
  nb_step H. nb_step H.
  unfold assign_num_train_epochs in E. nb_step E. injection E as _ <-.
  nb_step H. nb_step H. nb_step H.
  apply build_lora_model_run in E
    as (-> & Hcfg & Hargs & Hproc & Hfiles & Hgen & Hcalls & Hacc).
  simpl in *.
  nb_step H. nb_step H. nb_step H. nb_step H. nb_step H.
  nb_step H. nb_step H. nb_step H. nb_step H. nb_step H.
  apply trainer_save_model_run in E as (Hcfg' & Hargs' & Hproc' & Hcalls' & Hout' & _).
  nb_step H.
  apply print_model_size_run in H as (Hcfg'' & Hargs'' & Hproc'' & Hcalls'' & _ & Hacc'').
  simpl in *.
  rewrite H5 in H6. injection H6 as <-.
  rewrite Hargs, Hproc in H7.
  exists key, cfg, x0, x1, x, x2, x3, x5, x6.
  split; [done|].
  split; [unfold cfg_mappings; by rewrite H2, H3|].
  split; [unfold cfg_epochs; by rewrite H1|].
  split; [done|]. split; [done|].
  split; [congruence|]. split; [congruence|]. split; [congruence|].
  split.
  - rewrite Hcalls'', Hcalls', Hcalls, Hargs, <- app_assoc. done.
  - rewrite Hacc'', Hout'. unfold printed_accuracies in *.
    rewrite omap_app, Hacc. done.
Qed.

Lemma for_range_invariant (body : nat → NB unit) (I : nat → World → Prop) :
  (∀ i w u w', I i w → body i w = Some (u, w') → I (S i) w') →
  ∀ n start w u w',
    I start w → for_range start n body w = Some (u, w') → I (start + n) w'.
Proof.
  intros Hbody. induction n as [|n IH]; intros start w u w' HI H; simpl in H.
  - injection H as _ <-. by rewrite Nat.add_0_r.
  - apply nb_bind_Some in H as (u1 & w1 & E & H).
    replace (start + S n) with (S start + n) by lia.
    eapply IH; [|done]. eapply Hbody; eauto.
Qed.

Lemma with_num_train_epochs_twice e e' a :
  with_num_train_epochs e (with_num_train_epochs e' a) = with_num_train_epochs e a.
Proof. reflexivity. Qed.

Lemma same_but_epochs_with e a b :
  same_but_epochs a b → with_num_train_epochs e a = with_num_train_epochs e b.
Proof.
  unfold same_but_epochs. intros H.
  rewrite <- (with_num_train_epochs_twice e 0 a), H. done.
Qed.

Lemma trained_start w0 : trained w0 0 w0.
Proof.
  repeat split. exists [], []. rewrite !app_nil_r, take_0.
  repeat split; constructor.
Qed.

Lemma trained_step w0 i w u w' :
  trained w0 i w → train_task i w = Some (u, w') → trained w0 (S i) w'.
Proof.
  intros (Hcfg & Hproc & Hargs & cs & accs & Hcalls & Hlora & Htrainers & Hinf &
          Hout & Hlen & Hrange) H.
  destruct u.
  apply train_task_run in H
    as (key & cfg & label2id & id2label & epochs & train_data & test_data &
        results & accuracy & Hi & Hmaps & Hepochs & Heval & Hacc & Hcfg' &
        Hargs' & Hproc' & Hcalls' & Hout').
  rewrite Hcfg in Hi.
  apply trainer_evaluate_Some in Heval as (accuracy' & -> & Haccuracy).
  rewrite lookup_singleton_eq in Hacc. injection Hacc as ->.
  split; [congruence|]. split; [congruence|]. split.
  { unfold same_but_epochs in *. by rewrite Hargs'. }
  exists (cs ++ [ Call_build_lora_model label2id id2label;
                  Call_Trainer (get_peft_model (get_base_model label2id id2label)
                                               lora_config)
                    (with_num_train_epochs epochs (training_arguments w))
                    train_data test_data ]),
         (accs ++ [accuracy]).
  rewrite (take_S_r _ _ _ Hi).
  unfold lora_model_mappings, trainer_arguments, inference_model_mappings in *.
  rewrite !omap_app. simpl.
  split; [by rewrite Hcalls', Hcalls, <- app_assoc|].
  split; [apply Forall2_app; [done | by constructor]|].
  split.
  { apply Forall2_app; [done|]. constructor; [|constructor].
    exists epochs. split; [done|]. by apply same_but_epochs_with. }
  split; [by rewrite Hinf|].
  split; [by rewrite Hout', Hout, <- app_assoc|].
  split; [rewrite length_app; simpl; lia|].
  apply Forall_app. split; [done | by constructor].
Qed.

(** The loop of cell 20, from start to end. *)
Lemma cell_20_run w0 u w1 :
  cell_20 w0 = Some (u, w1) → trained w0 (length (config w0)) w1.
Proof.
  unfold cell_20, for_cfg_in_config_values. intros H.
  apply nb_bind_Some in H as (w & w0' & [= <- <-] & H).
  apply (for_range_invariant train_task (trained w0)) in H; [done| |].
  - intros i w1' u' w2 HI Hstep. by eapply trained_step.
  - apply trained_start.
Qed.

Lemma load_image_processor_run path w r :
  load_image_processor path w = Some r →
  ∃ saved, files w !! path = Some saved ∧ r = (preprocessor saved, w).
Proof.
  unfold load_image_processor. intros H.
  nb_step H. nb_step H. injection H as <-. eauto.
Qed.

Lemma build_inference_model_run label2id id2label path w r :
  build_inference_model label2id id2label path w = Some r →
  ∃ saved,
    files w !! path = Some saved ∧
    r = (PeftModel_from_pretrained (get_base_model label2id id2label) path saved,
         {| config := config w; training_arguments := training_arguments w;
            image_processor := image_processor w; files := files w;
            stdout := stdout w;
            calls := calls w ++ [Call_build_inference_model label2id id2label path];
            generator := generator w |}).
Proof.
  unfold build_inference_model. intros H.
  nb_step H. nb_step H. nb_step H. injection H as <-. simpl in *. eauto.
Qed.

Lemma cfg_assign_run i key value w r :
  cfg_assign i key value w = Some r →
  ∃ entry,
    config w !! i = Some entry ∧
    r = (tt, {| config := <[i := (fst entry, <[key := value]> (snd entry))]> (config w);
                training_arguments := training_arguments w;
                image_processor := image_processor w; files := files w;
                stdout := stdout w; calls := calls w;
                generator := generator w |}).
Proof.
  unfold cfg_assign. intros H.
  nb_step H. nb_step H. injection H as <-. eauto.
Qed.

(** What one round of the loop of cell 24 does to the world. *)
Lemma compose_task_run i w u w' :
  compose_task i w = Some (u, w') →
  ∃ key cfg cfg' label2id id2label path,
    config w !! i = Some (key, cfg) ∧
    cfg_mappings cfg = Some (label2id, id2label) ∧
    cfg !! "path" = Some (VStr path) ∧
    composed_cfg (files w) cfg cfg' ∧
    config w' = <[i := (key, cfg')]> (config w) ∧
    files w' = files w ∧
    stdout w' = stdout w ∧
    training_arguments w' = training_arguments w ∧
    calls w' = calls w ++ [Call_build_inference_model label2id id2label path].
Proof.
  unfold compose_task. intros H.
  nb_step H. destruct x as [key cfg]. simpl in H.
  nb_step H. nb_step H. nb_step H. nb_step H.
  apply build_inference_model_run in E as (saved & Hsaved & [= -> ->]).
  nb_step H. apply cfg_assign_run in E as (entry & Hentry & [= _ ->]).
  simpl in Hentry. rewrite H0 in Hentry. injection Hentry as <-. simpl in H.
  nb_step H. simpl in H4.
  rewrite list_lookup_insert_eq in H4 by (by eapply lookup_lt_Some).
  injection H4 as <-. simpl in H.
  nb_step H. nb_step H.
  apply load_image_processor_run in E as (saved' & Hsaved' & [= -> ->]).
  apply cfg_assign_run in H as (entry & Hentry & [= _ ->]).
  simpl in *.
  rewrite list_lookup_insert_eq in Hentry by (by eapply lookup_lt_Some).
  injection Hentry as <-. simpl.
  rewrite lookup_insert_ne in H4 by done.
  rewrite H3 in H4. injection H4 as <-.
  rewrite Hsaved in Hsaved'. injection Hsaved' as <-.
  eexists key, cfg, _, x, x0, x1.
  split; [done|].
  split; [unfold cfg_mappings; by rewrite H1, H2|].
  split; [done|]. split.
  { exists x, x0, x1, saved. split; [|done].
    unfold cfg_mappings. by rewrite H1, H2. }
  split; [by rewrite list_insert_insert_eq|]. done.
Qed.

Lemma composed_start w0 : composed w0 0 w0.
Proof.
  repeat split; try done.
  - intros j entry0 Hj. lia.
  - exists []. rewrite app_nil_r, take_0. repeat split; constructor.
Qed.

Lemma composed_cfg_mappings files cfg0 cfg :
  composed_cfg files cfg0 cfg → cfg_mappings cfg = cfg_mappings cfg0.
Proof.
  intros (label2id & id2label & path & saved & Hmaps & _ & _ & ->).
  unfold cfg_mappings. by rewrite !lookup_insert_ne by done.
Qed.

Lemma composed_step w0 i w u w' :
  composed w0 i w → compose_task i w = Some (u, w') → composed w0 (S i) w'.
Proof.
  intros (Hlen & Hfiles & Hout & Hargs & Hrest & Hdone & cs & Hcalls & Hinf &
          Hlora & Htrainers) H.
  apply compose_task_run in H
    as (key & cfg & cfg' & label2id & id2label & path & Hi & Hmaps & Hpath &
        Hcomposed & Hcfg' & Hfiles' & Hout' & Hargs' & Hcalls').
  assert (Hi0 : config w0 !! i = Some (key, cfg)) by (by rewrite <- Hrest).
  split; [by rewrite Hcfg', length_insert|].
  split; [congruence|]. split; [congruence|]. split; [congruence|].
  split.
  { intros j Hj. rewrite Hcfg', list_lookup_insert_ne by lia. apply Hrest. lia. }
  split.
  { intros j entry0 Hj Hentry0. rewrite Hcfg'.
    destruct (decide (j = i)) as [->|Hne].
    - rewrite Hi0 in Hentry0. injection Hentry0 as <-. simpl.
      rewrite list_lookup_insert_eq by (by eapply lookup_lt_Some).
      exists cfg'. by rewrite <- Hfiles.
    - rewrite list_lookup_insert_ne by done. apply Hdone; [lia | done]. }
  exists (cs ++ [Call_build_inference_model label2id id2label path]).
  rewrite (take_S_r _ _ _ Hi0).
  unfold lora_model_mappings, trainer_arguments, inference_model_mappings in *.
  rewrite !omap_app. simpl.
  split; [by rewrite Hcalls', Hcalls, <- app_assoc|].
  split; [apply Forall2_app; [done | by constructor]|].
  by rewrite Hlora, Htrainers.
Qed.

(** The loop of cell 24, from start to end. *)
Lemma cell_24_run w0 u w1 :
  cell_24 w0 = Some (u, w1) → composed w0 (length (config w0)) w1.
Proof.
  unfold cell_24, for_cfg_in_config_values. intros H.
  apply nb_bind_Some in H as (w & w0' & [= <- <-] & H).
  apply (for_range_invariant compose_task (composed w0)) in H; [done| |].
  - intros i w1' u' w2 HI Hstep. by eapply composed_step.
  - apply composed_start.
Qed.

End Loops.

(** ** Properties of the two loops *)

(** C1. When the training loop of cell 20 and then the loop of cell 24
    have run over a task configuration map, each task has brought exactly
    one entry into [build_lora_model] and one into [build_inference_model],
    in the order of the map, and the two received the same [label2id] and
    [id2label]: those of the task's dictionary. *)
Theorem inference_mappings_are_training_mappings `{L : Library}
    (w0 w1 w2 : World)
    (Htrain : cell_20 w0 = Some (tt, w1))
    (Hcompose : cell_24 w1 = Some (tt, w2)) :
  ∃ training_calls inference_calls,
    calls w1 = calls w0 ++ training_calls ∧
    calls w2 = calls w1 ++ inference_calls ∧
    Forall2 (λ entry m, cfg_mappings (snd entry) = Some m)
            (config w0) (lora_model_mappings training_calls) ∧
    Forall2 (λ entry m, cfg_mappings (snd entry) = Some m)
            (config w0) (inference_model_mappings inference_calls) ∧
    inference_model_mappings inference_calls = lora_model_mappings training_calls.
Proof.
  apply cell_20_run in Htrain
    as (Hcfg & _ & _ & cs & accs & Hcalls & Hlora & _ & _ & _).
  apply cell_24_run in Hcompose
    as (_ & _ & _ & _ & _ & _ & cs' & Hcalls' & Hinf & _ & _).
  rewrite firstn_all in Hlora, Hinf. rewrite Hcfg in Hinf.
  exists cs, cs'. repeat split; try done.
  eapply Forall2_unique; [done..|].
  intros entry m m' Hm Hm'. congruence.
Qed.

Lemma inference_mappings_are_training_mappings_witness :
  @cell_20 Demo.library Demo.prepared_world = Some (tt, Demo.trained_world) ∧
  cell_24 Demo.trained_world = Some (tt, Demo.composed_world) ∧
  ∃ training_calls inference_calls,
    calls Demo.trained_world = calls Demo.prepared_world ++ training_calls ∧
    calls Demo.composed_world = calls Demo.trained_world ++ inference_calls ∧
    Forall2 (λ entry m, cfg_mappings (snd entry) = Some m)
            (config Demo.prepared_world) (lora_model_mappings training_calls) ∧
    Forall2 (λ entry m, cfg_mappings (snd entry) = Some m)
            (config Demo.prepared_world)
            (inference_model_mappings inference_calls) ∧
    inference_model_mappings inference_calls = lora_model_mappings training_calls.
Proof.
  assert (H20 : @cell_20 Demo.library Demo.prepared_world
                = Some (tt, Demo.trained_world))
    by (vm_compute; reflexivity).
  assert (H24 : cell_24 Demo.trained_world
                = Some (tt, Demo.composed_world))
    by (vm_compute; reflexivity).
  split; [exact H20|]. split; [exact H24|].
  exact (inference_mappings_are_training_mappings _ _ _ H20 H24).
Defined.

(** C9. The loop of cell 20 works on the one [training_arguments] object
    of cell 18 and only ever assigns its [num_train_epochs]: the trainer of
    each task is created with the arguments of cell 18 in which
    [num_train_epochs] is the task's number of epochs, so that batch size
    128, gradient accumulation 4, learning rate 5/1000, [fp16] and the
    choice of the best model by accuracy are the same for every task, and
    after the loop the object still differs from that of cell 18 in the
    number of epochs only. *)
Theorem training_arguments_only_epochs_change `{L : Library} (w0 w1 : World)
    (Hcell18 : training_arguments w0 = initial_training_arguments)
    (Htrain : cell_20 w0 = Some (tt, w1)) :
  ∃ training_calls,
    calls w1 = calls w0 ++ training_calls ∧
    Forall2 (λ entry args,
               ∃ epochs, cfg_epochs (snd entry) = Some epochs ∧
                         args = with_num_train_epochs epochs initial_training_arguments)
            (config w0) (trainer_arguments training_calls) ∧
    Forall (λ args,
              same_but_epochs args initial_training_arguments ∧
              per_device_train_batch_size args = 128%Z ∧
              per_device_eval_batch_size args = 128%Z ∧
              gradient_accumulation_steps args = 4%Z ∧
              learning_rate args = (5 # 1000)%Q ∧
              fp16 args = true ∧
              load_best_model_at_end args = true ∧
              metric_for_best_model args = "accuracy")
           (trainer_arguments training_calls) ∧
    same_but_epochs (training_arguments w1) initial_training_arguments.
Proof.
  apply cell_20_run in Htrain
    as (_ & _ & Hsame & cs & accs & Hcalls & _ & Htrainers & _).
  rewrite firstn_all, Hcell18 in Htrainers. rewrite Hcell18 in Hsame.
  exists cs. split; [done|]. split; [done|]. split; [|done].
  apply list.Forall_forall. intros args Hargs.
  apply list_elem_of_lookup in Hargs as [i Hi].
  destruct (Forall2_lookup_r _ _ _ _ _ Htrainers Hi)
    as (entry & _ & epochs & _ & ->).
  by repeat split.
Qed.

Lemma training_arguments_only_epochs_change_witness :
  training_arguments Demo.prepared_world = initial_training_arguments ∧
  @cell_20 Demo.library Demo.prepared_world = Some (tt, Demo.trained_world) ∧
  trainer_arguments
    (drop (length (calls Demo.prepared_world)) (calls Demo.trained_world)) =
    [ with_num_train_epochs 5 initial_training_arguments;
      with_num_train_epochs 1 initial_training_arguments ] ∧
  same_but_epochs (training_arguments Demo.trained_world) initial_training_arguments.
Proof.
  assert (H18 : training_arguments Demo.prepared_world = initial_training_arguments)
    by (vm_compute; reflexivity).
  assert (H20 : @cell_20 Demo.library Demo.prepared_world
                = Some (tt, Demo.trained_world))
    by (vm_compute; reflexivity).
  split; [exact H18|]. split; [exact H20|].
  destruct (training_arguments_only_epochs_change _ _ H18 H20)
    as (cs & Hcalls & _ & _ & Hsame).
  split; [|exact Hsame].
  vm_compute. reflexivity.
Defined.



(** ** predict *)

Transparent get_base_model.

Lemma create_label_mappings_id2label (dataset : Dataset) (i : nat) :
  snd (create_label_mappings dataset) !! i = class_names dataset !! i.
Proof.
  unfold create_label_mappings. rewrite label_loop_id2label. simpl.
  rewrite Nat.sub_0_r. case_decide; [done|]. rewrite lookup_empty.
  symmetry. apply lookup_ge_None. lia.
Qed.

Lemma size_map_seq (names : list string) : ∀ start,
  size (map_seq start names : gmap nat string) = length names.
Proof.
  induction names as [|name rest IH]; intros start; simpl.
  - apply map_size_empty.
  - rewrite map_size_insert_None; [by rewrite IH|].
    apply lookup_map_seq_None. lia.
Qed.

(** [id2label] has one entry for each class name. *)
Lemma create_label_mappings_size (dataset : Dataset) :
  size (snd (create_label_mappings dataset)) = length (class_names dataset).
Proof.
  replace (snd (create_label_mappings dataset))
    with (map_seq 0 (class_names dataset) : gmap nat string).
  - apply size_map_seq.
  - apply map_eq. intros i.
    by rewrite lookup_map_seq_0, create_label_mappings_id2label.
Qed.

(** What [predict] returns for a model whose [id2label] is the one of a
    dataset and whose head has one logit per entry of it. *)
Lemma predict_with_task_mapping `{L : Library} (dataset : Dataset)
    (model : Model) (image : Image) (processor : ImageProcessor) :
  config_id2label model = snd (create_label_mappings dataset) →
  (∀ x, length (forward_logits model x) = size (config_id2label model)) →
  let logits :=
    forward_logits model (processor_call processor (pil_convert "RGB" image)) in
  (∀ label, predict image model processor = Some label →
     ∃ class_index score,
       argmax logits = Some class_index ∧
       logits !! class_index = Some score ∧
       is_maximum score logits ∧
       config_id2label model !! class_index = Some label ∧
       class_names dataset !! class_index = Some label ∧
       label ∈ class_names dataset) ∧
  (class_names dataset ≠ [] → is_Some (predict image model processor)).
Proof.
  intros Hid Hhead logits. split.
  - intros label Hpredict. unfold predict in Hpredict. fold logits in Hpredict.
    destruct (argmax logits) as [class_index|] eqn:Hargmax; [|discriminate].
    simpl in Hpredict.
    destruct (argmax_Some _ _ Hargmax) as (score & Hscore & Hmax).
    assert (Hname : class_names dataset !! class_index = Some label).
    { by rewrite <- create_label_mappings_id2label, <- Hid. }
    exists class_index, score. repeat split; try done.
    apply list_elem_of_lookup. eauto.
  - intros Hnames. unfold predict. fold logits.
    assert (Hlen : length logits = length (class_names dataset)).
    { unfold logits. by rewrite Hhead, Hid, create_label_mappings_size. }
    destruct (argmax logits) as [class_index|] eqn:Hargmax.
    + simpl. destruct (argmax_Some _ _ Hargmax) as (score & Hscore & _).
      rewrite Hid, create_label_mappings_id2label.
      apply lookup_lt_is_Some. apply lookup_lt_Some in Hscore. lia.
    + apply argmax_None in Hargmax. rewrite Hargmax in Hlen.
      destruct (class_names dataset); done.
Qed.

(** C2. Let [model] be the inference model composed for a task from the
    mappings [create_label_mappings] gives for the task's dataset, and let
    its head give one logit per entry of [id2label].  For every image,
    whatever [predict] returns is [id2label] at the argmax of the logits,
    an index holding a maximal logit; it is the class name of the task at
    that index, hence a label of the task, and it is in no label set that
    has no name in common with the task's.  When the task has a class at
    all, [predict] does return a label. *)
Theorem predict_returns_task_label `{L : Library} (dataset : Dataset)
    (path : string) (w w' : World) (model : Model)
    (image : Image) (processor : ImageProcessor)
    (Hmodel : build_inference_model (fst (create_label_mappings dataset))
                (snd (create_label_mappings dataset)) path w = Some (model, w'))
    (Hhead : ∀ x, length (forward_logits model x) = size (config_id2label model)) :
  let logits :=
    forward_logits model (processor_call processor (pil_convert "RGB" image)) in
  (∀ label, predict image model processor = Some label →
     ∃ class_index score,
       argmax logits = Some class_index ∧
       logits !! class_index = Some score ∧
       is_maximum score logits ∧
       config_id2label model !! class_index = Some label ∧
       class_names dataset !! class_index = Some label ∧
       label ∈ class_names dataset ∧
       ∀ other : Dataset,
         (∀ name, name ∈ class_names other → name ∉ class_names dataset) →
         label ∉ class_names other) ∧
  (class_names dataset ≠ [] → is_Some (predict image model processor)).
Proof.
  intros logits.
  apply build_inference_model_run in Hmodel as (saved & _ & [= -> _]).
  destruct (predict_with_task_mapping dataset
              (PeftModel_from_pretrained
                 (get_base_model (fst (create_label_mappings dataset))
                                 (snd (create_label_mappings dataset)))
                 path saved)
              image processor eq_refl Hhead)
    as [Hlabel Hsome].
  split; [|done].
  intros label Hpredict.
  destruct (Hlabel label Hpredict)
    as (class_index & score & Hargmax & Hscore & Hmax & Hid & Hname & Hin).
  exists class_index, score. repeat split; try done.
  intros other Hdisjoint Hother. by apply (Hdisjoint label).
Qed.

Lemma demo_score_length (model : Model) (x : Tensor) :
  length (Demo.score model x) = size (config_id2label model).
Proof. unfold Demo.score. by rewrite length_map, length_seq. Qed.

Lemma predict_returns_task_label_witness :
  ∃ w' label,
    build_inference_model (fst (create_label_mappings Demo.food))
      (snd (create_label_mappings Demo.food)) "./lora-model1" Demo.trained_world
    = Some (Demo.food_model, w') ∧
    (∀ x, length (@forward_logits Demo.library Demo.food_model x)
          = size (config_id2label Demo.food_model)) ∧
    @predict Demo.library (Demo.picture "RGBA" 5) Demo.food_model Demo.vit_processor
    = Some label ∧
    label ∈ class_names Demo.food.
Proof.
  assert (Hmodel : ∃ w',
            build_inference_model (fst (create_label_mappings Demo.food))
              (snd (create_label_mappings Demo.food)) "./lora-model1"
              Demo.trained_world
            = Some (Demo.food_model, w'))
    by (eexists; vm_compute; reflexivity).
  destruct Hmodel as [w' Hmodel].
  assert (Hhead : ∀ x, length (@forward_logits Demo.library Demo.food_model x)
                       = size (config_id2label Demo.food_model))
    by (intros x; apply demo_score_length).
  destruct (predict_returns_task_label (L := Demo.library) Demo.food
              "./lora-model1" Demo.trained_world w' Demo.food_model
              (Demo.picture "RGBA" 5) Demo.vit_processor Hmodel Hhead)
    as [Hlabel Hsome].
  destruct Hsome as [label Hpredict]; [done|].
  destruct (Hlabel label Hpredict) as (k & score & _ & _ & _ & _ & _ & Hin & _).
  exists w', label. exact (conj Hmodel (conj Hhead (conj Hpredict Hin))).
Defined.




(** ** Cell 28: a sample routed to a task's inference model *)

Lemma get_model_Some cfg key w r :
  get_model cfg key w = Some r → ∃ m, cfg !! key = Some (VModel m) ∧ r = (m, w).
Proof.
  unfold get_model. destruct (cfg !! key) as [[]|]; try discriminate.
  unfold nb_ret. intros [= <-]. eauto.
Qed.

Lemma get_processor_Some cfg key w r :
  get_processor cfg key w = Some r →
  ∃ p, cfg !! key = Some (VProcessor p) ∧ r = (p, w).
Proof.
  unfold get_processor. destruct (cfg !! key) as [[]|]; try discriminate.
  unfold nb_ret. intros [= <-]. eauto.
Qed.

Lemma config_item_Some key w r :
  config_item key w = Some r →
  ∃ i entry, list_find (λ entry, fst entry = key) (config w) = Some (i, entry) ∧
             r = (snd entry, w).
Proof.
  unfold config_item. intros H. nb_step H.
  apply from_option_Some in H as (cfg & H & ->).
  destruct (list_find _ (config w)) as [[i entry]|]; [|discriminate].
  injection H as <-. eauto.
Qed.

(** What one round of the loop of cell 28 does. *)
Lemma predict_sample_run `{L : Library} sample w u w' :
  predict_sample sample w = Some (u, w') →
  ∃ image i entry model processor label,
    fetch_image (sample_image sample) = Some image ∧
    list_find (λ entry, fst entry = sample_model sample) (config w)
    = Some (i, entry) ∧
    snd entry !! "inference_model" = Some (VModel model) ∧
    snd entry !! "image_processor" = Some (VProcessor processor) ∧
    predict image model processor = Some label ∧
    config w' = config w ∧
    image_processor w' = processor ∧
    stdout w' = stdout w ++ [PredictionLine label].
Proof.
  unfold predict_sample. intros H.
  nb_step H. nb_step H.
  apply config_item_Some in E as (i & entry & Hfind & [= -> ->]).
  nb_step H. apply get_model_Some in E as (model & Hmodel & [= -> ->]).
  nb_step H.
  apply config_item_Some in E as (i' & entry' & Hfind' & [= -> ->]).
  rewrite Hfind in Hfind'. injection Hfind' as <- <-.
  nb_step H. apply get_processor_Some in E as (processor & Hproc & [= -> ->]).
  nb_step H. nb_step H. injection H as _ <-. simpl.
  eexists _, i, entry, model, processor, _. repeat split; done.
Qed.

(** After the loop of cell 24, a sample that names a task is predicted
    with that task's composed model: when the task's mappings are those of
    [create_label_mappings] on a dataset and every head has one logit per
    entry of [id2label], the label printed is a class name of that
    dataset. *)
Lemma routed_sample_gets_task_label `{L : Library} (w0 w1 w2 : World)
    (sample : Sample) (u : unit) :
  (∀ model x, length (forward_logits model x) = size (config_id2label model)) →
  cell_24 w0 = Some (tt, w1) →
  predict_sample sample w1 = Some (u, w2) →
  ∃ i key cfg0 label,
    list_find (λ entry, fst entry = sample_model sample) (config w0)
    = Some (i, (key, cfg0)) ∧
    stdout w2 = stdout w1 ++ [PredictionLine label] ∧
    ∀ dataset, cfg_mappings cfg0 = Some (create_label_mappings dataset) →
               label ∈ class_names dataset.
Proof.
  intros Hhead Hcell Hsample.
  apply cell_24_run in Hcell as (Hlen & _ & _ & _ & _ & Hdone & _).
  apply predict_sample_run in Hsample
    as (image & i & entry & model & processor & label & _ & Hfind & Hmodel &
        _ & Hpredict & _ & _ & Hout).
  apply list_find_Some in Hfind as (Hi & Hkey & Hfirst).
  assert (Hi0 : is_Some (config w0 !! i)).
  { apply lookup_lt_is_Some. rewrite <- Hlen. by eapply lookup_lt_Some. }
  destruct Hi0 as [[key cfg0] Hi0].
  destruct (Hdone i (key, cfg0)) as (cfg & Hi' & Hcomposed);
    [eapply lookup_lt_Some; exact Hi0 | done |].
  simpl in *. rewrite Hi in Hi'. injection Hi' as ->. simpl in *.
  exists i, key, cfg0, label. split; [|split; [done|]].
  - apply list_find_Some. split; [done|]. split; [done|].
    intros j [key' cfg'] Hj Hlt. simpl.
    destruct (Hdone j (key', cfg')) as (cfg'' & Hj' & _);
      [apply lookup_lt_Some in Hi0; lia | done |].
    simpl in Hj'. intros ->. by apply (Hfirst j _ Hj' Hlt).
  - intros dataset Hmaps.
    destruct Hcomposed as (label2id & id2label & path & saved & Hmaps' & _ & _ & ->).
    rewrite lookup_insert_ne, lookup_insert_eq in Hmodel by done.
    injection Hmodel as <-.
    rewrite Hmaps in Hmaps'. injection Hmaps' as Heq.
    destruct (predict_with_task_mapping dataset
                (PeftModel_from_pretrained (get_base_model label2id id2label)
                                           path saved)
                image processor) as [Hlabel _];
      [by rewrite Heq | apply Hhead |].
    by destruct (Hlabel label Hpredict) as (? & ? & _ & _ & _ & _ & _ & ?).
Qed.

(** ** build_lora_model *)

Transparent count_parameters get_peft_model get_base_model.

Lemma inject_adapter_app config trainable (ps qs : list Param) :
  inject_adapter config trainable (ps ++ qs)
  = inject_adapter config trainable ps ++ inject_adapter config trainable qs.
Proof. unfold inject_adapter. by rewrite map_app, concat_app, map_app. Qed.

Lemma count_loop_app counters (ps qs : list Param) :
  count_loop counters (ps ++ qs) = count_loop (count_loop counters ps) qs.
Proof. apply foldl_app. Qed.

(** The backbone by itself, and with the adapter of the notebook. *)
Lemma backbone_counts :
  count_loop (0%Z, 0%Z) vit_backbone_parameters = (85798656%Z, 85798656%Z).
Proof. vm_compute. reflexivity. Qed.

Lemma adapted_backbone_counts :
  count_loop (0%Z, 0%Z) (inject_adapter lora_config true vit_backbone_parameters)
  = (86388480%Z, 589824%Z).
Proof. vm_compute. reflexivity. Qed.

Lemma adapted_backbone_trainable :
  Forall (λ p, requires_grad p
               = adapter_matrix_on ["query"; "value"] 16 p || is_classifier_head p)
         (inject_adapter lora_config true vit_backbone_parameters).
Proof. apply (bool_decide_unpack _). vm_compute. exact I. Qed.

Lemma adapted_backbone_adapter_sites :
  Forall (λ p, is_adapter_matrix p = adapter_matrix_on ["query"; "value"] 16 p)
         (inject_adapter lora_config true vit_backbone_parameters).
Proof. apply (bool_decide_unpack _). vm_compute. exact I. Qed.

Lemma adapted_backbone_adapters :
  Forall (λ q, is_query_or_value_weight q = true →
               Forall (λ a, a ∈ inject_adapter lora_config true vit_backbone_parameters)
                      (adapter_of 16 q))
         vit_backbone_parameters.
Proof. apply (bool_decide_unpack _). vm_compute. exact I. Qed.

Lemma backbone_has_no_classifier :
  Forall (λ q, module_path q ≠ ["classifier"]) vit_backbone_parameters.
Proof. apply (bool_decide_unpack _). vm_compute. exact I. Qed.

(** The classifier with the adapter configuration of the notebook: the
    original stays, frozen, and a trainable copy is added. *)
Lemma adapted_classifier (num_labels : nat) :
  inject_adapter lora_config true (vit_classifier num_labels)
  = concat (map (λ q, [ under_base_model (inside ["original_module"] (frozen q));
                        head_copy q ])
                (vit_classifier num_labels)).
Proof. by destruct num_labels. Qed.

Lemma classifier_paths (num_labels : nat) :
  Forall (λ q, module_path q = ["classifier"]) (vit_classifier num_labels).
Proof. destruct num_labels; repeat constructor. Qed.

Lemma classifier_counts (num_labels : nat) counters :
  count_loop counters (vit_classifier num_labels)
  = ((fst counters + 769 * Z.of_nat num_labels)%Z,
     (snd counters + 769 * Z.of_nat num_labels)%Z).
Proof.
  destruct counters as [parameters trainable].
  destruct num_labels as [|n]; simpl.
  - f_equal; lia.
  - unfold numel. simpl. f_equal; lia.
Qed.

Lemma adapted_classifier_counts (num_labels : nat) counters :
  count_loop counters (inject_adapter lora_config true (vit_classifier num_labels))
  = ((fst counters + 2 * (769 * Z.of_nat num_labels))%Z,
     (snd counters + 769 * Z.of_nat num_labels)%Z).
Proof.
  destruct counters as [parameters trainable].
  destruct num_labels as [|n]; simpl.
  - f_equal; lia.
  - unfold numel. simpl. f_equal; lia.
Qed.

(** The counters of [print_trainable_parameters] for the base model and
    for the model with the adapter, by the number of labels. *)
Lemma base_model_counts label2id id2label :
  count_parameters (get_base_model label2id id2label)
  = ((85798656 + 769 * Z.of_nat (size id2label))%Z,
     (85798656 + 769 * Z.of_nat (size id2label))%Z).
Proof.
  unfold count_parameters, get_base_model, from_pretrained, vit_base_parameters.
  cbn [named_parameters].
  by rewrite count_loop_app, backbone_counts, classifier_counts.
Qed.

Lemma lora_model_counts label2id id2label :
  count_parameters (get_peft_model (get_base_model label2id id2label) lora_config)
  = ((86388480 + 2 * (769 * Z.of_nat (size id2label)))%Z,
     (589824 + 769 * Z.of_nat (size id2label))%Z).
Proof.
  unfold count_parameters, get_peft_model, get_base_model, from_pretrained,
    vit_base_parameters.
  cbn [named_parameters].
  by rewrite inject_adapter_app, count_loop_app, adapted_backbone_counts,
    adapted_classifier_counts.
Qed.

(** Each parameter of a base model is still there after the wrapping,
    frozen, under "base_model.model" and possibly one wrapper name. *)
Lemma inject_adapter_keeps config trainable (ps : list Param) q :
  q ∈ ps →
  ∃ p, p ∈ inject_adapter config trainable ps ∧
       requires_grad p = false ∧ pname p = pname q ∧ shape p = shape q ∧
       ∃ wrapper, module_path p = "base_model" :: "model" :: module_path q ++ wrapper.
Proof.
  intros Hq.
  assert (Hfirst : ∃ p0, p0 ∈ wrap_param config trainable q ∧
            requires_grad p0 = false ∧ pname p0 = pname q ∧ shape p0 = shape q ∧
            ∃ wrapper, module_path p0 = module_path q ++ wrapper).
  { unfold wrap_param.
    destruct (selected (target_modules config) (module_path q)).
    - eexists. split; [apply list_elem_of_here|]. simpl. eauto.
    - destruct (selected (modules_to_save config) (module_path q)).
      + eexists. split; [apply list_elem_of_here|]. simpl. eauto.
      + eexists. split; [apply list_elem_of_here|]. simpl.
        repeat split. exists []. by rewrite app_nil_r. }
  destruct Hfirst as (p0 & Hp0 & Hgrad & Hname & Hshape & wrapper & Hpath).
  exists (under_base_model p0). split.
  - unfold inject_adapter. apply list_elem_of_In, in_map, in_concat.
    exists (wrap_param config trainable q).
    split; [by apply in_map, list_elem_of_In | by apply list_elem_of_In].
  - simpl. repeat split; try done. exists wrapper. by rewrite Hpath.
Qed.

(** C6. For every pair of label mappings, [build_lora_model] returns the
    base model wrapped with the adapter configuration of rank 16, alpha
    16, dropout 1/10 on the modules named "query" and "value", with the
    classifier among the modules to save.  In the model returned

    - a parameter is trainable exactly when it is an adapter matrix of
      rank 16 on a "query" or "value" module or belongs to the trained copy
      of the classifier head;
    - there is no adapter matrix anywhere else;
    - every query and value weight of the base model has its two adapter
      matrices, and every parameter of the classifier has its trainable
      copy;
    - every parameter of the base model is still present, frozen;
    - the parameters added to the base model are as many as the trainable
      ones, 589824 + 769 per label. *)
Theorem build_lora_model_trainable (label2id : gmap string nat)
    (id2label : gmap nat string) (w : World) :
  ∃ model w',
    build_lora_model label2id id2label w = Some (model, w') ∧
    peft_config model = Some lora_config ∧
    r lora_config = 16%Z ∧
    lora_alpha lora_config = 16%Z ∧
    lora_dropout lora_config = (1 # 10)%Q ∧
    target_modules lora_config = ["query"; "value"] ∧
    modules_to_save lora_config = ["classifier"] ∧
    let base := named_parameters (get_base_model label2id id2label) in
    Forall (λ p, requires_grad p
                 = adapter_matrix_on ["query"; "value"] 16 p || is_classifier_head p)
           (named_parameters model) ∧
    Forall (λ p, is_adapter_matrix p = adapter_matrix_on ["query"; "value"] 16 p)
           (named_parameters model) ∧
    (∀ q a, q ∈ base → is_query_or_value_weight q = true →
            a ∈ adapter_of 16 q → a ∈ named_parameters model) ∧
    (∀ q, q ∈ base → module_path q = ["classifier"] →
          head_copy q ∈ named_parameters model) ∧
    (∀ q, q ∈ base →
          ∃ p, p ∈ named_parameters model ∧
               requires_grad p = false ∧ pname p = pname q ∧ shape p = shape q ∧
               ∃ wrapper,
                 module_path p = "base_model" :: "model" :: module_path q ++ wrapper) ∧
    snd (count_parameters model) = (589824 + 769 * Z.of_nat (size id2label))%Z ∧
    fst (count_parameters model)
    = (fst (count_parameters (get_base_model label2id id2label))
       + snd (count_parameters model))%Z.
Proof.
  set (model := get_peft_model (get_base_model label2id id2label) lora_config).
  assert (Hparams : named_parameters model
            = inject_adapter lora_config true vit_backbone_parameters ++
              inject_adapter lora_config true (vit_classifier (size id2label))).
  { unfold model, get_peft_model, get_base_model, from_pretrained,
      vit_base_parameters. cbn [named_parameters]. apply inject_adapter_app. }
  assert (Hbase : named_parameters (get_base_model label2id id2label)
            = vit_backbone_parameters ++ vit_classifier (size id2label))
    by reflexivity.
  assert (Hrun : ∃ w', build_lora_model label2id id2label w = Some (model, w')).
  { unfold build_lora_model, print_trainable_parameters. fold model.
    rewrite base_model_counts. unfold model. rewrite lora_model_counts.
    simpl fst. simpl snd.
    rewrite !decide_False by lia. by eexists. }
  destruct Hrun as [w' Hrun].
  exists model, w'. split; [done|].
  do 6 (split; [reflexivity|]).
  intros base. unfold base. clear base. rewrite Hparams, Hbase.
  split; [|split; [|split; [|split; [|split; [|split]]]]].
  - apply Forall_app. split; [apply adapted_backbone_trainable|].
    destruct (size id2label); repeat constructor.
  - apply Forall_app. split; [apply adapted_backbone_adapter_sites|].
    destruct (size id2label); repeat constructor.
  - intros q a Hq Hsite Ha. apply elem_of_app in Hq as [Hq|Hq].
    + apply elem_of_app. left.
      pose proof adapted_backbone_adapters as Hall.
      rewrite list.Forall_forall in Hall. specialize (Hall q Hq Hsite).
      rewrite list.Forall_forall in Hall. by apply Hall.
    + pose proof (classifier_paths (size id2label)) as Hpaths.
      rewrite list.Forall_forall in Hpaths. specialize (Hpaths q Hq).
      unfold is_query_or_value_weight in Hsite. rewrite Hpaths in Hsite.
      discriminate.
  - intros q Hq Hpath. apply elem_of_app in Hq as [Hq|Hq].
    + pose proof backbone_has_no_classifier as Hnone.
      rewrite list.Forall_forall in Hnone. by destruct (Hnone q Hq).
    + apply elem_of_app. right. rewrite adapted_classifier.
      apply list_elem_of_In, in_concat.
      exists [ under_base_model (inside ["original_module"] (frozen q));
               head_copy q ].
      split; [|right; by left].
      apply (in_map (λ q, [ under_base_model (inside ["original_module"] (frozen q));
                            head_copy q ])).
      by apply list_elem_of_In.
  - intros q Hq. rewrite <- inject_adapter_app.
    by apply inject_adapter_keeps.
  - unfold model. by rewrite lora_model_counts.
  - unfold model. rewrite lora_model_counts, base_model_counts. simpl. lia.
Qed.

(** The counters for 101 labels and for 2 labels are the ones the cell
    outputs of the notebook show: 85,876,325 and 667,493/86,543,818 for
    the food task, 85,800,194 and 591,362/86,391,556 for cats and dogs. *)
Lemma recorded_parameter_counts label2id id2label :
  (size id2label = 101 →
   count_parameters (get_base_model label2id id2label)
   = (85876325%Z, 85876325%Z) ∧
   count_parameters (get_peft_model (get_base_model label2id id2label) lora_config)
   = (86543818%Z, 667493%Z)) ∧
  (size id2label = 2 →
   count_parameters (get_base_model label2id id2label)
   = (85800194%Z, 85800194%Z) ∧
   count_parameters (get_peft_model (get_base_model label2id id2label) lora_config)
   = (86391556%Z, 591362%Z)).
Proof.
  rewrite base_model_counts, lora_model_counts.
  split; intros ->; split; reflexivity.
Qed.

(** What the adapter checkpoint has to hold, the trainable parameters, is
    less than the backbone alone, whatever the number of labels. *)
Lemma trainable_fewer_than_backbone label2id id2label :
  (snd (count_parameters
          (get_peft_model (get_base_model label2id id2label) lora_config))
   < fst (count_parameters (get_base_model label2id id2label)))%Z.
Proof. rewrite lora_model_counts, base_model_counts. simpl. lia. Qed.

(** * Part III: further properties of the notebook's code *)

(** ** create_label_mappings without the distinctness of the names *)

Lemma label_loop_label2id_is_Some (names : list string) : ∀ i acc name,
  is_Some (fst (label_loop i names acc) !! name) ↔
  name ∈ names ∨ is_Some (fst acc !! name).
Proof.
  induction names as [|l rest IH]; intros i acc name; simpl.
  - split; [by right|]. intros [H|H]; [by apply elem_of_nil in H | done].
  - rewrite IH. simpl. rewrite elem_of_cons.
    destruct (decide (l = name)) as [->|Hne].
    + rewrite lookup_insert_eq. split; [by left; left | by right].
    + rewrite lookup_insert_ne by done.
      split; [intros [H|H]; [left; by right | by right]|].
      intros [[H|H]|H]; [congruence | by left | by right].
Qed.

Lemma label_loop_label2id_size (names : list string) : ∀ i acc,
  size (fst (label_loop i names acc)) ≤ size (fst acc) + length names.
Proof.
  induction names as [|l rest IH]; intros i acc; simpl; [lia|].
  etrans; [apply IH|]. simpl.
  pose proof (map_size_insert l i (fst acc)) as Hsize.
  destruct (fst acc !! l); simpl in Hsize; lia.
Qed.

(** The entry of [label2id] for a name is the index of the last
    occurrence of the name: later assignments overwrite earlier ones. *)
Lemma label_loop_label2id_last (names : list string) : ∀ i acc name k,
  fst (label_loop i names acc) !! name = Some k ↔
  ((i ≤ k) ∧ names !! (k - i) = Some name ∧
   (∀ j, k - i < j → names !! j ≠ Some name)) ∨
  ((name ∉ names) ∧ fst acc !! name = Some k).
Proof.
  induction names as [|l rest IH]; intros i acc name k; simpl.
  - split; [intros H; right; split; [apply not_elem_of_nil | done]|].
    intros [(_ & H & _)|[_ H]]; done.
  - rewrite IH. simpl. rewrite not_elem_of_cons. split.
    + intros [(Hle & Hk & Hlast)|[Hnot Hacc]].
      * left. split; [lia|].
        replace (k - i) with (S (k - S i)) by lia. split; [done|].
        intros j Hj. destruct j as [|j]; [lia|]. simpl. apply Hlast. lia.
      * destruct (decide (l = name)) as [->|Hne].
        -- rewrite lookup_insert_eq in Hacc. injection Hacc as <-.
           left. split; [lia|]. rewrite Nat.sub_diag. split; [done|].
           intros j Hj. destruct j as [|j]; [lia|]. simpl.
           intros Hin. apply Hnot. apply list_elem_of_lookup. eauto.
        -- rewrite lookup_insert_ne in Hacc by done. right. done.
    + intros [(Hle & Hk & Hlast)|[[Hne Hnot] Hacc]].
      * destruct (decide (k = i)) as [->|Hki].
        -- rewrite Nat.sub_diag in Hk, Hlast. simpl in Hk. injection Hk as ->.
           right. split.
           ++ intros Hin. apply list_elem_of_lookup in Hin as [j Hj].
              apply (Hlast (S j)); [lia | done].
           ++ by rewrite lookup_insert_eq.
        -- left. split; [lia|].
           replace (k - i) with (S (k - S i)) in Hk, Hlast by lia. simpl in Hk.
           split; [done|]. intros j Hj. apply (Hlast (S j)). lia.
      * right. split; [done|]. by rewrite lookup_insert_ne.
Qed.

(** X1. For every dataset, also one whose class names repeat,
    [id2label[i]] is the [i]-th class name, [label2id] has an entry
    exactly for the class names, [id2label[label2id[name]] = name] for
    every class name, [id2label] has as many entries as there are class
    names and [label2id] at most as many. *)
Theorem create_label_mappings_any_names (dataset : Dataset) :
  let '(label2id, id2label) := create_label_mappings dataset in
  (∀ i, id2label !! i = class_names dataset !! i) ∧
  (∀ name, is_Some (label2id !! name) ↔ name ∈ class_names dataset) ∧
  (∀ name, name ∈ class_names dataset →
     ∃ i, label2id !! name = Some i ∧ id2label !! i = Some name) ∧
  size id2label = length (class_names dataset) ∧
  size label2id ≤ length (class_names dataset).
Proof.
  pose proof (create_label_mappings_id2label dataset) as Hid.
  pose proof (create_label_mappings_size dataset) as Hsize.
  assert (Hdom : ∀ name, is_Some (fst (create_label_mappings dataset) !! name)
                         ↔ name ∈ class_names dataset).
  { intros name. unfold create_label_mappings.
    rewrite label_loop_label2id_is_Some. simpl. rewrite lookup_empty.
    split; [intros [H|[? H]]; done | by left]. }
  assert (Hlast : ∀ name i, fst (create_label_mappings dataset) !! name = Some i →
                            class_names dataset !! i = Some name).
  { intros name i. unfold create_label_mappings.
    rewrite label_loop_label2id_last. simpl. rewrite lookup_empty, Nat.sub_0_r.
    intros [(_ & H & _)|[_ H]]; done. }
  assert (Hle : size (fst (create_label_mappings dataset))
                ≤ length (class_names dataset)).
  { unfold create_label_mappings.
    etrans; [apply label_loop_label2id_size|]. simpl. by rewrite map_size_empty. }
  destruct (create_label_mappings dataset) as [label2id id2label]. simpl in *.
  repeat split; try done; try apply Hdom.
  intros name Hin. apply Hdom in Hin as [i Hi].
  exists i. split; [done|]. rewrite Hid. by apply Hlast.
Qed.

(** X2. [label2id[name] = i] exactly when [i] is the index of the last
    occurrence of [name] among the class names: where a name repeats, the
    later assignment [label2id[label] = i] overwrites the earlier one. *)
Theorem create_label_mappings_last_occurrence (dataset : Dataset)
    (name : string) (i : nat) :
  fst (create_label_mappings dataset) !! name = Some i ↔
  class_names dataset !! i = Some name ∧
  ∀ j, i < j → class_names dataset !! j ≠ Some name.
Proof.
  unfold create_label_mappings. rewrite label_loop_label2id_last. simpl.
  rewrite lookup_empty, Nat.sub_0_r. split.
  - intros [(_ & H & Hlast)|[_ H]]; done.
  - intros [H Hlast]. left. split; [lia | done].
Qed.

(** ** The helper functions of cell 5 and cell 16 *)

Lemma count_loop_sums (ps : list Param) : ∀ counters,
  count_loop counters ps
  = ((fst counters + foldr (λ p total, numel p + total) 0 ps)%Z,
     (snd counters
      + foldr (λ p total, (if requires_grad p then numel p else 0) + total) 0 ps)%Z).
Proof.
  induction ps as [|p ps IH]; intros [parameters trainable]; simpl.
  - f_equal; lia.
  - unfold count_loop in IH. rewrite IH. simpl. f_equal; lia.
Qed.

Lemma numel_nonneg (p : Param) :
  Forall (λ d, (0 <= d)%Z) (shape p) → (0 <= numel p)%Z.
Proof.
  unfold numel. induction 1 as [|d ds Hd _ IH]; simpl; lia.
Qed.

(** X3. [print_trainable_parameters]: the two counters are the sum of
    [numel] over all parameters and over those that require a gradient;
    when no dimension is negative, [0 <= trainable <= parameters]; the
    function raises (division by zero in the percentage) exactly when the
    model has no element at all, and otherwise adds one line to the
    output and changes nothing else. *)
Theorem print_trainable_parameters_counts (model : Model) (label : string)
    (w : World)
    (Hdims : Forall (λ p, Forall (λ d, (0 <= d)%Z) (shape p))
                    (named_parameters model)) :
  let parameters := fst (count_parameters model) in
  let trainable := snd (count_parameters model) in
  parameters = foldr (λ p total, numel p + total)%Z 0%Z (named_parameters model) ∧
  trainable = foldr (λ p total, (if requires_grad p then numel p else 0) + total)%Z
                    0%Z (named_parameters model) ∧
  (0 <= trainable <= parameters)%Z ∧
  (print_trainable_parameters model label w = None ↔ parameters = 0%Z) ∧
  (parameters ≠ 0%Z →
   print_trainable_parameters model label w
   = Some (tt, {| config := config w; training_arguments := training_arguments w;
                  image_processor := image_processor w; files := files w;
                  stdout := stdout w ++ [TrainableLine label trainable parameters];
                  calls := calls w; generator := generator w |})).
Proof.
  intros parameters trainable. unfold parameters, trainable, count_parameters.
  rewrite count_loop_sums. simpl fst. simpl snd. rewrite !Z.add_0_l.
  split; [done|]. split; [done|]. split.
  - induction Hdims as [|p ps Hp _ IH]; simpl; [lia|].
    apply numel_nonneg in Hp. destruct (requires_grad p); lia.
  - unfold print_trainable_parameters, count_parameters.
    rewrite count_loop_sums. simpl fst. simpl snd. rewrite !Z.add_0_l.
    split.
    + case_decide as Hzero.
      * split; [done | intros _; reflexivity].
      * split; [discriminate | done].
    + intros Hne. by rewrite decide_False.
Qed.

Lemma print_trainable_parameters_counts_witness :
  Forall (λ p, Forall (λ d, (0 <= d)%Z) (shape p))
         (named_parameters DemoCells.small_model) ∧
  count_parameters DemoCells.small_model = (9%Z, 2%Z) ∧
  (0 <= snd (count_parameters DemoCells.small_model)
     <= fst (count_parameters DemoCells.small_model))%Z.
Proof.
  assert (Hdims : Forall (λ p, Forall (λ d, (0 <= d)%Z) (shape p))
                         (named_parameters DemoCells.small_model)).
  { apply (bool_decide_unpack _). vm_compute. exact I. }
  split; [exact Hdims|]. split; [reflexivity|].
  destruct (print_trainable_parameters_counts DemoCells.small_model "small"
              Demo.empty_world Hdims) as (_ & _ & Hbounds & _).
  exact Hbounds.
Defined.

Lemma total_size_permutation (entries entries' : list (string * Z)) :
  entries ≡ₚ entries' →
  foldl (λ size f, (size + snd f)%Z) 0%Z entries
  = foldl (λ size f, (size + snd f)%Z) 0%Z entries'.
Proof.
  assert (Hsum : ∀ (l : list (string * Z)) start,
            foldl (λ size f, (size + snd f)%Z) start l
            = (start + foldr (λ f total, snd f + total) 0 l)%Z).
  { induction l as [|f l IH]; intros start; simpl; [lia|]. rewrite IH. lia. }
  intros Hperm. rewrite !Hsum. f_equal.
  induction Hperm; simpl; lia.
Qed.

(** X4. [print_model_size] raises exactly when there is no directory at
    the path; otherwise it prints the sum of the sizes of the entries,
    which does not depend on the order in which [os.scandir] lists them
    and is 0 for an empty directory, and changes nothing but the
    output. *)
Theorem print_model_size_total (path : string) (w : World) :
  (print_model_size path w = None ↔ files w !! path = None) ∧
  (∀ dir, files w !! path = Some dir →
     ∃ size,
       print_model_size path w
       = Some (tt, {| config := config w; training_arguments := training_arguments w;
                      image_processor := image_processor w; files := files w;
                      stdout := stdout w ++ [ModelSizeLine size];
                      calls := calls w; generator := generator w |}) ∧
       size = foldr (λ f total, snd f + total)%Z 0%Z (dir_entries dir) ∧
       (dir_entries dir = [] → size = 0%Z) ∧
       ∀ entries, entries ≡ₚ dir_entries dir →
                  foldl (λ size f, (size + snd f)%Z) 0%Z entries = size).
Proof.
  unfold print_model_size, nb_bind, get_world, from_option, nb_ret, raise, print.
  destruct (files w !! path) as [dir|]; simpl.
  - split; [split; discriminate|]. intros dir' [= <-].
    assert (Hsum : ∀ (l : list (string * Z)) start,
              foldl (λ size f, (size + snd f)%Z) start l
              = (start + foldr (λ f total, snd f + total) 0 l)%Z).
    { induction l as [|f l IH]; intros start; simpl; [lia|]. rewrite IH. lia. }
    eexists. split; [reflexivity|]. split; [by rewrite Hsum|].
    split; [by intros ->|].
    intros entries Hperm. by apply total_size_permutation.
  - split; [done|]. discriminate.
Qed.


Lemma count_equal_all (predictions references : list nat) :
  length predictions = length references →
  (count_equal predictions references = length references ↔
   predictions = references) ∧
  (count_equal predictions references = 0 ↔
   ∀ i x y, predictions !! i = Some x → references !! i = Some y → x ≠ y).
Proof.
  unfold count_equal. revert references.
  induction predictions as [|x xs IH]; intros [|y ys] Hlen; try discriminate.
  - simpl. split; [done|]. split; [by intros _ i ? ? ?|done].
  - injection Hlen as Hlen. destruct (IH ys Hlen) as [IHall IHnone].
    simpl zip. rewrite filter_cons.
    pose proof (length_filter (λ pr : nat * nat, fst pr = snd pr) (zip xs ys)) as Hle.
    rewrite length_zip in Hle.
    case_decide as Hxy; simpl in Hxy; [subst x|]; simpl.
    + split.
      * split; [intros [= H]; f_equal; by apply IHall|].
        intros [= H]. f_equal. by apply IHall.
      * split; [discriminate|]. intros H. by destruct (H 0 y y).
    + split.
      * split; [lia | by intros [= ? ?]].
      * rewrite IHnone. split.
        -- intros H [|i] x' y' Hx Hy; simpl in *; [congruence | eauto].
        -- intros H i x' y' Hx Hy. by apply (H (S i)).
Qed.

(** X6. When [compute_metrics] returns, its accuracy is 1 exactly when
    the argmax of every row is the row's label, and 0 exactly when no
    row's argmax is its label. *)
Theorem compute_metrics_extremes (eval_pred : EvalPrediction)
    (metrics : gmap string Q)
    (Hmetrics : compute_metrics eval_pred = Some metrics) :
  ∃ classes accuracy,
    argmax_axis1 (predictions eval_pred) = Some classes ∧
    metrics !! "accuracy" = Some accuracy ∧
    ((accuracy == 1)%Q ↔ classes = label_ids eval_pred) ∧
    ((accuracy == 0)%Q ↔
     ∀ i x y, classes !! i = Some x → label_ids eval_pred !! i = Some y → x ≠ y).
Proof.
  apply compute_metrics_Some in Hmetrics as (classes & accuracy & Hclasses & Hacc & ->).
  apply accuracy_compute_Some in Hacc as (Hlen & Hne & -> & _).
  destruct (count_equal_all classes (label_ids eval_pred) Hlen) as [Hall Hnone].
  eexists classes, _. split; [done|]. split; [apply lookup_singleton_eq|].
  set (n := length (label_ids eval_pred)) in *.
  assert (Hn : Z.pos (Pos.of_nat n) = Z.of_nat n).
  { unfold n. destruct (label_ids eval_pred) as [|y ys]; [done|].
    simpl length. rewrite <- Pos.of_nat_succ.
    by rewrite Zpos_P_of_succ_nat, Nat2Z.inj_succ. }
  split.
  - rewrite <- Hall. unfold Qeq. simpl. rewrite Hn. lia.
  - rewrite <- Hnone. unfold Qeq. simpl. lia.
Qed.

Lemma compute_metrics_extremes_witness :
  compute_metrics Demo.two_rows = Some {[ "accuracy" := (1 # 2)%Q ]} ∧
  ∃ classes accuracy,
    argmax_axis1 (predictions Demo.two_rows) = Some classes ∧
    ({[ "accuracy" := (1 # 2)%Q ]} : gmap string Q) !! "accuracy" = Some accuracy ∧
    ((accuracy == 1)%Q ↔ classes = label_ids Demo.two_rows).
Proof.
  assert (Hmetrics : compute_metrics Demo.two_rows
                     = Some {[ "accuracy" := (1 # 2)%Q ]}) by reflexivity.
  split; [exact Hmetrics|].
  destruct (compute_metrics_extremes Demo.two_rows _ Hmetrics)
    as (classes & accuracy & Hclasses & Haccuracy & Hone & _).
  exists classes, accuracy. split; [exact Hclasses|]. split; [exact Haccuracy|].
  exact Hone.
Defined.

(** X7. [preprocess] keeps the columns "image" and "label", puts one
    tensor per image into "pixel_values" whatever that column held
    before, and applying it a second time changes nothing. *)
Theorem preprocess_idempotent `{L : Library} (processor : ImageProcessor)
    (batch : Batch) :
  b_image (preprocess processor batch) = b_image batch ∧
  b_label (preprocess processor batch) = b_label batch ∧
  (∃ pixels, b_pixel_values (preprocess processor batch) = Some pixels ∧
             length pixels = length (b_image batch)) ∧
  (∀ old, preprocess processor
            {| b_image := b_image batch; b_label := b_label batch;
               b_pixel_values := old |}
          = preprocess processor batch) ∧
  preprocess processor (preprocess processor batch) = preprocess processor batch.
Proof.
  unfold preprocess. simpl. repeat split; try done.
  eexists. split; [done|]. by rewrite length_map.
Qed.

(** ** The rounds of the loops as functions *)

Opaque count_parameters get_peft_model get_base_model trainer_evaluate trainer_train.

Lemma nb_bind_run {A B} (m : NB A) (k : A → NB B) w a w' :
  m w = Some (a, w') → nb_bind m k w = k a w'.
Proof. unfold nb_bind. by intros ->. Qed.

Lemma nb_bind_fail {A B} (m : NB A) (k : A → NB B) w :
  m w = None → nb_bind m k w = None.
Proof. unfold nb_bind. by intros ->. Qed.

Lemma build_lora_model_result label2id id2label w :
  build_lora_model label2id id2label w
  = Some (get_peft_model (get_base_model label2id id2label) lora_config,
          {| config := config w; training_arguments := training_arguments w;
             image_processor := image_processor w; files := files w;
             stdout := stdout w ++
               [ TrainableLine "Base model"
                   (snd (count_parameters (get_base_model label2id id2label)))
                   (fst (count_parameters (get_base_model label2id id2label)));
                 TrainableLine "LoRA"
                   (snd (count_parameters
                           (get_peft_model (get_base_model label2id id2label)
                                           lora_config)))
                   (fst (count_parameters
                           (get_peft_model (get_base_model label2id id2label)
                                           lora_config))) ];
             calls := calls w ++ [Call_build_lora_model label2id id2label];
             generator := generator w |}).
Proof.
  unfold build_lora_model, print_trainable_parameters, nb_bind, record_call, print,
    nb_ret.
  rewrite !decide_False.
  - simpl. by rewrite <- app_assoc.
  - rewrite lora_model_counts. simpl. lia.
  - rewrite base_model_counts. simpl. lia.
Qed.

Lemma get_int_option cfg key :
  get_int cfg key = from_option (cfg !! key ≫= as_int).
Proof. unfold get_int. by destruct (cfg !! key) as [[]|]. Qed.

Lemma get_label2id_option cfg key :
  get_label2id cfg key = from_option (cfg !! key ≫= as_label2id).
Proof. unfold get_label2id. by destruct (cfg !! key) as [[]|]. Qed.

Lemma get_id2label_option cfg key :
  get_id2label cfg key = from_option (cfg !! key ≫= as_id2label).
Proof. unfold get_id2label. by destruct (cfg !! key) as [[]|]. Qed.

Lemma get_dataset_option cfg key :
  get_dataset cfg key = from_option (cfg !! key ≫= as_dataset).
Proof. unfold get_dataset. by destruct (cfg !! key) as [[]|]. Qed.

Lemma get_str_option cfg key :
  get_str cfg key = from_option (cfg !! key ≫= as_str).
Proof. unfold get_str. by destruct (cfg !! key) as [[]|]. Qed.

Transparent trainer_train get_peft_model.

Lemma trained_model_adapter model config args train test processor :
  peft_config
    (t_model (trainer_train {| t_model := get_peft_model model config;
                               t_args := args; t_train_dataset := train;
                               t_eval_dataset := test; t_tokenizer := processor |}))
  = Some config.
Proof. reflexivity. Qed.

Opaque trainer_train get_peft_model.

Section Rounds.

Context `{L : Library}.

Lemma train_task_is_result i w : train_task i w = train_task_result i w.
Proof.
  unfold train_task, train_task_result.
  unfold nth_cfg, get_world. unfold nb_bind at 1. unfold nb_bind at 1.
  destruct (config w !! i) as [[key cfg]|]; [|done]. simpl.
  unfold read_task.
  rewrite get_int_option, get_label2id_option, get_id2label_option,
    !get_dataset_option, !get_str_option.
  generalize (cfg !! "epochs" ≫= as_int). intros [epochs|]; [|done].
  generalize (cfg !! "label2id" ≫= as_label2id). intros [label2id|]; [|done].
  generalize (cfg !! "id2label" ≫= as_id2label). intros [id2label|]; [|done].
  generalize (cfg !! "train_data" ≫= as_dataset). intros train.
  generalize (cfg !! "test_data" ≫= as_dataset). intros test.
  generalize (cfg !! "path" ≫= as_str). intros path.
  unfold assign_num_train_epochs, get_world, set_training_arguments.
  unfold nb_bind at 1. simpl from_option. unfold nb_ret at 1.
  unfold nb_bind at 1. unfold nb_bind at 1.
  unfold nb_bind at 1. simpl from_option. unfold nb_ret at 1.
  unfold nb_bind at 1. simpl from_option. unfold nb_ret at 1.
  erewrite nb_bind_run by apply build_lora_model_result.
  unfold nb_bind at 1.
  cbn [config training_arguments image_processor files stdout calls generator].
  destruct train as [train|]; [|done]. simpl from_option. unfold nb_ret at 1.
  unfold nb_bind at 1.
  destruct test as [test|]; [|done]. simpl from_option. unfold nb_ret at 1.
  destruct path as [path|]; simpl mbind;
    [|unfold nb_bind, record_call, from_option, nb_ret, raise, print; simpl;
      by repeat case_match].
  unfold nb_bind at 1. unfold record_call at 1.
  cbn [config training_arguments image_processor files stdout calls generator].
  unfold nb_bind at 1. unfold nb_ret at 1.
  unfold task_accuracy, task_trainer, task_model. simpl mbind.
  cbn [task_epochs task_label2id task_id2label task_train task_test task_path].
  unfold nb_bind at 1.
  generalize (trainer_evaluate
       (trainer_train
          {|
            t_model := get_peft_model (get_base_model label2id id2label) lora_config;
            t_args := with_num_train_epochs epochs (training_arguments w);
            t_train_dataset := train;
            t_eval_dataset := test;
            t_tokenizer := image_processor w
          |})
       test).
  intros [results|]; [|done]. simpl from_option. unfold nb_ret at 1.
  unfold nb_bind at 1. simpl mbind.
  destruct (results !! "eval_accuracy") as [accuracy|]; [|done].
  simpl from_option. unfold nb_ret at 1.
  unfold nb_bind at 1. unfold print at 1.
  cbn [config training_arguments image_processor files stdout calls generator].
  unfold nb_bind at 1.
  simpl from_option. unfold nb_ret at 1.
  unfold nb_bind at 1. unfold trainer_save_model.
  unfold nb_bind at 1. rewrite trained_model_adapter. simpl from_option.
  unfold nb_ret at 1. unfold nb_bind at 1. unfold get_world at 1.
  unfold set_files at 1.
  cbn [config training_arguments image_processor files stdout calls generator].
  unfold nb_bind at 1. unfold nb_ret at 1.
  unfold print_model_size, nb_bind, get_world.
  cbn [config training_arguments image_processor files stdout calls generator].
  rewrite lookup_insert_eq. simpl from_option. unfold nb_ret, print.
  cbn [config training_arguments image_processor files stdout calls generator
       dir_entries].
  unfold after_task, task_lines, task_artifact, task_trainer, task_model.
  cbn [task_epochs task_label2id task_id2label task_train task_test task_path
       dir_entries].
  rewrite <- !app_assoc. reflexivity.
Qed.

End Rounds.

Lemma cfg_assign_result i key value w entry :
  config w !! i = Some entry →
  cfg_assign i key value w
  = Some (tt, {| config := <[i := (fst entry, <[key := value]> (snd entry))]> (config w);
                 training_arguments := training_arguments w;
                 image_processor := image_processor w; files := files w;
                 stdout := stdout w; calls := calls w;
                 generator := generator w |}).
Proof.
  intros Hentry. unfold cfg_assign, nb_bind, get_world. rewrite Hentry. done.
Qed.

Lemma set_transform_is_result f i key w :
  set_transform i key f w
  = (entry ← config w !! i;
     d ← snd entry !! key ≫= as_dataset;
     Some (tt, {| config :=
                    <[i := (fst entry,
                            <[key := VDataset (with_transform f d)]> (snd entry))]>
                      (config w);
                  training_arguments := training_arguments w;
                  image_processor := image_processor w; files := files w;
                  stdout := stdout w; calls := calls w;
                  generator := generator w |})).
Proof.
  unfold set_transform, nth_cfg, get_world. unfold nb_bind at 1. unfold nb_bind at 1.
  destruct (config w !! i) as [[k cfg]|] eqn:Hentry; [|done]. simpl.
  rewrite get_dataset_option. unfold nb_bind at 1.
  destruct (cfg !! key ≫= as_dataset) as [d|]; [|done]. simpl.
  by rewrite (cfg_assign_result _ _ _ _ _ Hentry).
Qed.

Lemma transform_task_is_result f i w :
  (set_transform i "train_data" f ;;; set_transform i "test_data" f) w
  = transform_task_result f i w.
Proof.
  unfold transform_task_result. unfold nb_bind. rewrite set_transform_is_result.
  destruct (config w !! i) as [[k cfg]|] eqn:Hentry; [|done]. simpl.
  destruct (cfg !! "train_data" ≫= as_dataset) as [train|]; [|done]. simpl.
  rewrite set_transform_is_result. simpl.
  rewrite list_lookup_insert_eq by (by eapply lookup_lt_Some). simpl.
  rewrite lookup_insert_ne by done.
  destruct (cfg !! "test_data" ≫= as_dataset) as [test|]; [|done]. simpl.
  by rewrite list_insert_insert_eq.
Qed.

Lemma compose_task_is_result i w : compose_task i w = compose_task_result i w.
Proof.
  unfold compose_task, compose_task_result.
  unfold nth_cfg at 1, get_world. unfold nb_bind at 1. unfold nb_bind at 1.
  destruct (config w !! i) as [[key cfg]|] eqn:Hentry; [|done]. simpl.
  rewrite get_label2id_option, get_id2label_option, get_str_option.
  unfold nb_bind at 1.
  destruct (cfg !! "label2id" ≫= as_label2id) as [label2id|]; [|done]. simpl.
  unfold nb_bind at 1.
  destruct (cfg !! "id2label" ≫= as_id2label) as [id2label|]; [|done]. simpl.
  unfold nb_bind at 1.
  destruct (cfg !! "path" ≫= as_str) as [path|] eqn:Hpath; [|done]. simpl.
  unfold nb_bind at 1. unfold build_inference_model, record_call, get_world.
  unfold nb_bind at 1. unfold nb_bind at 1. simpl.
  unfold nb_bind at 1. simpl.
  destruct (files w !! path) as [saved|] eqn:Hsaved; [|done]. simpl.
  unfold nb_bind at 1.
  erewrite cfg_assign_result by (simpl; exact Hentry). simpl.
  unfold nb_bind at 1. unfold nth_cfg, get_world, nb_bind at 1. simpl.
  rewrite list_lookup_insert_eq by (by eapply lookup_lt_Some). simpl.
  rewrite get_str_option. unfold nb_bind at 1.
  rewrite lookup_insert_ne by done. rewrite Hpath. simpl.
  unfold nb_bind at 1. unfold load_image_processor, get_world, nb_bind at 1. simpl.
  rewrite Hsaved. simpl.
  erewrite cfg_assign_result
    by (simpl; apply list_lookup_insert_eq; by eapply lookup_lt_Some).
  simpl. by rewrite list_insert_insert_eq.
Qed.

Section Cell20.

Context `{L : Library}.

Lemma train_tasks_rounds (cfg0 : list (string * gmap string Value)) : ∀ n start w,
  config w = cfg0 → start + n = length cfg0 →
  for_range start n train_task w
  = (ts ← read_tasks (drop start cfg0);
     w1 ← train_tasks w ts;
     Some (tt, w1)).
Proof.
  induction n as [|n IH]; intros start w Hcfg Hlen; simpl.
  - rewrite drop_ge by lia. done.
  - assert (Hentry : is_Some (cfg0 !! start)) by (apply lookup_lt_is_Some; lia).
    destruct Hentry as [entry Hentry].
    rewrite (drop_S _ _ _ Hentry). unfold read_tasks. simpl.
    unfold nb_bind at 1. rewrite train_task_is_result. unfold train_task_result.
    rewrite Hcfg, Hentry. simpl.
    destruct (read_task (snd entry)) as [t|]; [|done]. simpl.
    destruct (task_accuracy w t) as [accuracy|] eqn:Hacc; simpl.
    + rewrite IH by (done || lia). unfold read_tasks.
      destruct (mapM _ _) as [ts|]; simpl; [|done]. by rewrite Hacc.
    + destruct (mapM _ _) as [ts|]; simpl; [|done]. by rewrite Hacc.
Qed.

(** The loop of cell 20 in closed form. *)
Lemma cell_20_is_train_tasks w :
  cell_20 w = (ts ← read_tasks (config w); w1 ← train_tasks w ts; Some (tt, w1)).
Proof.
  unfold cell_20, for_cfg_in_config_values, nb_bind, get_world.
  by rewrite (train_tasks_rounds (config w)).
Qed.

End Cell20.

(** ** Cell 20: requirements, effect and output *)

Lemma read_task_Some cfg t :
  read_task cfg = Some t ↔
  cfg !! "epochs" = Some (VInt (task_epochs t)) ∧
  cfg !! "label2id" = Some (VLabel2id (task_label2id t)) ∧
  cfg !! "id2label" = Some (VId2label (task_id2label t)) ∧
  cfg !! "train_data" = Some (VDataset (task_train t)) ∧
  cfg !! "test_data" = Some (VDataset (task_test t)) ∧
  cfg !! "path" = Some (VStr (task_path t)).
Proof.
  unfold read_task. split.
  - intros H.
    destruct (cfg !! "epochs") as [[]|]; try discriminate.
    destruct (cfg !! "label2id") as [[]|]; try discriminate.
    destruct (cfg !! "id2label") as [[]|]; try discriminate.
    destruct (cfg !! "train_data") as [[]|]; try discriminate.
    destruct (cfg !! "test_data") as [[]|]; try discriminate.
    destruct (cfg !! "path") as [[]|]; try discriminate.
    simpl in H. injection H as <-. done.
  - intros (-> & -> & -> & -> & -> & ->). by destruct t.
Qed.


Section Cell20Effect.

Context `{L : Library}.

Lemma task_trainer_same_setting a a' processor t :
  same_but_epochs a a' → task_trainer a processor t = task_trainer a' processor t.
Proof.
  intros Hsame. unfold task_trainer.
  by rewrite (same_but_epochs_with (task_epochs t) _ _ Hsame).
Qed.

Lemma task_accuracy_same_setting w w' t :
  same_but_epochs (training_arguments w) (training_arguments w') →
  image_processor w = image_processor w' →
  task_accuracy w t = task_accuracy w' t.
Proof.
  intros Hsame Hproc. unfold task_accuracy.
  by rewrite (task_trainer_same_setting _ _ _ _ Hsame), Hproc.
Qed.

Lemma final_arguments_snoc args ts t :
  final_arguments args (ts ++ [t]) = with_num_train_epochs (task_epochs t) args.
Proof. unfold final_arguments. by rewrite last_snoc. Qed.

Lemma final_arguments_same args ts : same_but_epochs (final_arguments args ts) args.
Proof. unfold final_arguments. by destruct (last ts). Qed.

(** What the loop of cell 20 has done when it is through the tasks
    [ts]. *)
Lemma train_tasks_effect (w0 : World) (ts : list Task) : ∀ w w1,
  same_but_epochs (training_arguments w) (training_arguments w0) →
  image_processor w = image_processor w0 →
  train_tasks w ts = Some w1 →
  ∃ accuracies,
    Forall2 (λ t a, task_accuracy w0 t = Some a) ts accuracies ∧
    config w1 = config w ∧
    image_processor w1 = image_processor w0 ∧
    generator w1 = generator w ∧
    training_arguments w1
    = match last ts with
      | Some t => with_num_train_epochs (task_epochs t) (training_arguments w0)
      | None => training_arguments w
      end ∧
    files w1 = saved_files (training_arguments w0) (image_processor w0) ts (files w) ∧
    stdout w1
    = stdout w ++
      concat (zip_with (λ t a, task_lines (task_trainer (training_arguments w0)
                                                        (image_processor w0) t) t a)
                       ts accuracies) ∧
    calls w1 = calls w ++ concat (map (task_calls (training_arguments w0)) ts).
Proof.
  induction ts as [|t ts IH]; intros w w1 Hsame Hproc Hrun; simpl in Hrun.
  - injection Hrun as <-. exists []. simpl. rewrite !app_nil_r.
    repeat split; try done.
  - destruct (task_accuracy w t) as [accuracy|] eqn:Hacc; [|discriminate].
    simpl in Hrun.
    rewrite (task_accuracy_same_setting w w0 t Hsame Hproc) in Hacc.
    assert (Htr : task_trainer (training_arguments w) (image_processor w) t
                  = task_trainer (training_arguments w0) (image_processor w0) t).
    { by rewrite (task_trainer_same_setting _ _ _ _ Hsame), Hproc. }
    apply IH in Hrun as (accs & Haccs & Hcfg & Hip & Hgen & Hargs & Hfiles &
                              Hout & Hcalls); [| |done].
    2:{ simpl. unfold same_but_epochs in *.
        by rewrite with_num_train_epochs_twice. }
    exists (accuracy :: accs).
    split; [by constructor|]. split; [done|]. split; [done|]. split; [done|].
    split.
    { rewrite Hargs. destruct ts as [|t' ts].
      - simpl. by apply same_but_epochs_with.
      - rewrite last_cons_cons.
        destruct (last (t' :: ts)) as [t''|] eqn:Hlast; [done|].
        by apply last_None in Hlast. }
    simpl in *.
    split; [by rewrite Hfiles, Htr|].
    split.
    + rewrite Hout, Htr, <- app_assoc. done.
    + rewrite Hcalls, <- app_assoc. unfold task_calls at 2. simpl.
      by rewrite (same_but_epochs_with (task_epochs t) _ _ Hsame).
Qed.

End Cell20Effect.

Transparent trainer_evaluate.

Section Evaluate.

Context `{L : Library}.

Lemma trainer_evaluate_needs_transform tr test results :
  trainer_evaluate tr test = Some results → is_Some (transform test).
Proof.
  unfold trainer_evaluate, examples_of. intros H.
  destruct (transform test) as [f|]; [by eexists | simpl in H; discriminate].
Qed.


End Evaluate.

Opaque trainer_evaluate.

Lemma for_range_total (body : nat → NB unit) (I : nat → World → Prop) : ∀ n start w,
  I start w →
  (∀ i w, start ≤ i < start + n → I i w →
          ∃ w', body i w = Some (tt, w') ∧ I (S i) w') →
  ∃ w', for_range start n body w = Some (tt, w') ∧ I (start + n) w'.
Proof.
  induction n as [|n IH]; intros start w HI Hbody; simpl.
  - exists w. by rewrite Nat.add_0_r.
  - destruct (Hbody start w) as (w1 & Hrun & HI1); [lia | done |].
    destruct (IH (S start) w1 HI1) as (w' & Hrest & HI').
    { intros i w2 Hi. apply Hbody. lia. }
    exists w'. unfold nb_bind. rewrite Hrun.
    split; [done|]. by replace (start + S n) with (S start + n) by lia.
Qed.

Section SavedFiles.

Context `{L : Library}.

Implicit Types (ts : list Task) (fs : gmap string Artifact).





End SavedFiles.

Section Cell20Properties.

Context `{L : Library}.

(** A run of cell 20, taken apart. *)
Lemma cell_20_run_tasks w0 w1 :
  cell_20 w0 = Some (tt, w1) →
  ∃ ts accuracies,
    read_tasks (config w0) = Some ts ∧
    Forall2 (λ t a, task_accuracy w0 t = Some a) ts accuracies ∧
    config w1 = config w0 ∧
    image_processor w1 = image_processor w0 ∧
    generator w1 = generator w0 ∧
    training_arguments w1 = final_arguments (training_arguments w0) ts ∧
    files w1 = saved_files (training_arguments w0) (image_processor w0) ts (files w0) ∧
    stdout w1
    = stdout w0 ++
      concat (zip_with (λ t a, task_lines (task_trainer (training_arguments w0)
                                                        (image_processor w0) t) t a)
                       ts accuracies) ∧
    calls w1 = calls w0 ++ concat (map (task_calls (training_arguments w0)) ts).
Proof.
  rewrite cell_20_is_train_tasks. intros H.
  destruct (read_tasks (config w0)) as [ts|]; [|discriminate]. simpl in H.
  destruct (train_tasks w0 ts) as [w|] eqn:Hrun; [|discriminate].
  injection H as ->.
  apply (train_tasks_effect w0) in Hrun
    as (accs & Haccs & Hcfg & Hip & Hgen & Hargs & Hfiles & Hout & Hcalls);
    [|done..].
  exists ts, accs. repeat split; try done.
Qed.

End Cell20Properties.

(** ** Cell 14 *)

Section Cell14.

Context `{L : Library}.

Lemma transformed_step f w0 i w u w' :
  transformed f w0 i w →
  (set_transform i "train_data" f ;;; set_transform i "test_data" f) w = Some (u, w') →
  transformed f w0 (S i) w'.
Proof.
  intros (Hargs & Hip & Hfiles & Hout & Hcalls & Hgen & Hlen & Hrest & Hdone) H.
  rewrite transform_task_is_result in H. unfold transform_task_result in H.
  destruct (config w !! i) as [[key cfg]|] eqn:Hentry; [|discriminate].
  simpl in H.
  destruct (cfg !! "train_data") as [[train| | | | | |]|] eqn:Htrain; try discriminate.
  destruct (cfg !! "test_data") as [[test| | | | | |]|] eqn:Htest; try discriminate.
  simpl in H. injection H as _ <-. simpl.
  assert (Hentry0 : config w0 !! i = Some (key, cfg)) by (by rewrite <- Hrest).
  unfold transformed. cbn [config training_arguments image_processor files stdout
                           calls generator].
  repeat split; try done.
  - by rewrite length_insert.
  - intros j Hj. rewrite list_lookup_insert_ne by lia. apply Hrest. lia.
  - rewrite (take_S_r _ _ _ Hentry0).
    erewrite take_S_r
      by (apply list_lookup_insert_eq; by eapply lookup_lt_Some).
    rewrite take_insert_ge by lia.
    apply Forall2_app; [done|]. constructor; [|constructor].
    split; [done|]. by exists train, test.
Qed.

Lemma cell_14_run (w0 w1 : World) :
  cell_14 w0 = Some (tt, w1) →
  training_arguments w1 = training_arguments w0 ∧
  image_processor w1 = image_processor w0 ∧
  files w1 = files w0 ∧
  stdout w1 = stdout w0 ∧
  calls w1 = calls w0 ∧
  generator w1 = generator w0 ∧
  Forall2 (λ e0 e1,
             fst e1 = fst e0 ∧
             transformed_cfg (preprocess (image_processor w0)) (snd e0) (snd e1))
          (config w0) (config w1).
Proof.
  intros Hrun. unfold cell_14, for_cfg_in_config_values in Hrun.
  apply nb_bind_Some in Hrun as (w & w' & [= <- <-] & Hrun).
  apply nb_bind_Some in Hrun as (w & w' & [= <- <-] & Hrun).
  apply (for_range_invariant _ (transformed (preprocess (image_processor w0)) w0))
    in Hrun.
  - destruct Hrun as (Hargs & Hip & Hfiles & Hout & Hcalls & Hgen & Hlen & _ & Hdone).
    simpl in Hdone. rewrite firstn_all in Hdone.
    rewrite <- Hlen, firstn_all in Hdone. done.
  - intros i w u w' HI Hstep. by eapply transformed_step.
  - by repeat split.
Qed.

Lemma cell_14_total (w : World) :
  Forall (λ entry, has_splits (snd entry)) (config w) →
  ∃ w', cell_14 w = Some (tt, w').
Proof.
  intros Hall.
  destruct (for_range_total
              (λ i, nb_bind (set_transform i "train_data"
                               (preprocess (image_processor w)))
                            (λ _, set_transform i "test_data"
                                    (preprocess (image_processor w))))
              (λ i w', length (config w') = length (config w) ∧
                       ∀ j, i ≤ j → config w' !! j = config w !! j)
              (length (config w)) 0 w) as (w' & Hrun & _); [done| |by exists w'].
  intros i w' [_ Hi] (Hlen & Hrest).
  destruct (lookup_lt_is_Some_2 (config w) i) as [[key cfg] Hentry]; [lia|].
  pose proof (proj1 (list.Forall_forall _ _) Hall _
                (list_elem_of_lookup_2 _ _ _ Hentry))
    as (train & test & Htrain & Htest).
  simpl in Htrain, Htest.
  rewrite transform_task_is_result. unfold transform_task_result.
  rewrite Hrest, Hentry by lia. simpl. rewrite Htrain, Htest. simpl.
  eexists. split; [done|]. simpl. split; [by rewrite length_insert|].
  intros j Hj. rewrite list_lookup_insert_ne by lia. apply Hrest. lia.
Qed.

(** X8. The loop of cell 14 gives every task's "train_data" and
    "test_data" the transform [preprocess] built from the image processor
    of that moment, keeps the keys of the map and every other entry of the
    dictionaries, and changes nothing else in the world. *)
Theorem cell_14_sets_transforms (w0 w1 : World)
    (Hrun : cell_14 w0 = Some (tt, w1)) :
  training_arguments w1 = training_arguments w0 ∧
  image_processor w1 = image_processor w0 ∧
  files w1 = files w0 ∧
  stdout w1 = stdout w0 ∧
  calls w1 = calls w0 ∧
  generator w1 = generator w0 ∧
  Forall2 (λ e0 e1,
             fst e1 = fst e0 ∧
             transformed_cfg (preprocess (image_processor w0)) (snd e0) (snd e1))
          (config w0) (config w1).
Proof. by apply cell_14_run. Qed.

(** X9. The loop of cell 14 runs to its end exactly when every task's
    dictionary has a dataset under "train_data" and under "test_data". *)
Theorem cell_14_runs_iff (w : World) :
  (∃ w', cell_14 w = Some (tt, w')) ↔
  Forall (λ entry, has_splits (snd entry)) (config w).
Proof.
  split; [|apply cell_14_total].
  intros [w' Hrun]. apply cell_14_run in Hrun as (_ & _ & _ & _ & _ & _ & Hall).
  apply list.Forall_forall. intros entry Hentry.
  apply list_elem_of_lookup in Hentry as [i Hi].
  destruct (Forall2_lookup_l _ _ _ _ _ Hall Hi)
    as (entry' & _ & _ & train & test & Htrain & Htest & _).
  by exists train, test.
Qed.

End Cell14.

(** ** Cell 20 *)

Transparent trainer_train get_peft_model get_base_model.


Lemma task_trainer_label2id args processor t :
  config_label2id (t_model (task_trainer args processor t)) = task_label2id t.
Proof. reflexivity. Qed.

Opaque trainer_train get_peft_model get_base_model.

Section Cell20Run.

Context `{L : Library}.

Lemma task_accuracy_needs_transform w t accuracy :
  task_accuracy w t = Some accuracy →
  is_Some (transform (task_test t)) ∧ (0 <= accuracy <= 1)%Q.
Proof.
  unfold task_accuracy. intros H.
  destruct (trainer_evaluate _ _) as [results|] eqn:Heval; [|discriminate].
  simpl in H. split; [by eapply trainer_evaluate_needs_transform|].
  apply trainer_evaluate_Some in Heval as (a & -> & Ha).
  rewrite lookup_singleton_eq in H. by injection H as <-.
Qed.

(** X10. The loop of cell 20 completes only if every task's dictionary has
    "epochs" (an integer), "label2id", "id2label", "train_data",
    "test_data" (datasets) and "path" (a string), and the test split has a
    transform set: without cell 14 the loop raises. *)
Theorem cell_20_requirements (w0 w1 : World)
    (Hrun : cell_20 w0 = Some (tt, w1)) :
  Forall (λ entry,
            ∃ t, snd entry !! "epochs" = Some (VInt (task_epochs t)) ∧
                 snd entry !! "label2id" = Some (VLabel2id (task_label2id t)) ∧
                 snd entry !! "id2label" = Some (VId2label (task_id2label t)) ∧
                 snd entry !! "train_data" = Some (VDataset (task_train t)) ∧
                 snd entry !! "test_data" = Some (VDataset (task_test t)) ∧
                 snd entry !! "path" = Some (VStr (task_path t)) ∧
                 is_Some (transform (task_test t)))
         (config w0).
Proof.
  apply cell_20_run_tasks in Hrun as (ts & accs & Hts & Haccs & _).
  apply mapM_Some in Hts.
  apply list.Forall_forall. intros entry Hentry.
  apply list_elem_of_lookup in Hentry as [i Hi].
  destruct (Forall2_lookup_l _ _ _ _ _ Hts Hi) as (t & Ht & Hread).
  destruct (Forall2_lookup_l _ _ _ _ _ Haccs Ht) as (a & _ & Ha).
  apply task_accuracy_needs_transform in Ha as [Htransform _].
  apply read_task_Some in Hread as (? & ? & ? & ? & ? & ?).
  exists t. done.
Qed.






End Cell20Run.

Transparent trainer_train.

Lemma task_trainer_tokenizer args processor t :
  t_tokenizer (task_trainer args processor t) = processor.
Proof. reflexivity. Qed.

Lemma task_trainer_args args processor t :
  t_args (task_trainer args processor t) = with_num_train_epochs (task_epochs t) args.
Proof. reflexivity. Qed.



Opaque trainer_train.

Transparent get_peft_model get_base_model.


Opaque get_peft_model get_base_model.

Section Cell20Output.

Context `{L : Library}.

Lemma foldl_total_size (entries : list (string * Z)) : ∀ start,
  foldl (λ size f, (size + snd f)%Z) start entries
  = (start + foldr (λ f total, snd f + total) 0 entries)%Z.
Proof.
  induction entries as [|f entries IH]; intros start; simpl; [lia|].
  rewrite IH. lia.
Qed.

Lemma task_lines_report args processor t accuracy :
  task_lines (task_trainer args processor t) t accuracy
  = task_report args processor t accuracy.
Proof.
  unfold task_lines, task_report, report_lines, task_model, task_artifact.
  cbn [dir_entries].
  rewrite base_model_counts, lora_model_counts, foldl_total_size.
  by rewrite task_trainer_tokenizer, task_trainer_args.
Qed.

(** X13. The loop of cell 20 prints four lines per task, in the order of
    the map: the parameter counts of the base model (all 85,798,656 + 769 n
    trainable, n the number of labels), those of the model with the
    adapter (589,824 + 769 n trainable of 86,388,480 + 1,538 n), the
    evaluation accuracy, which lies between 0 and 1, and the size of the
    directory just written. *)
Theorem cell_20_prints (w0 w1 : World)
    (Hrun : cell_20 w0 = Some (tt, w1)) :
  ∃ ts accuracies,
    read_tasks (config w0) = Some ts ∧
    length ts = length (config w0) ∧
    length accuracies = length ts ∧
    Forall (λ a, (0 <= a <= 1)%Q) accuracies ∧
    stdout w1
    = stdout w0 ++
      concat (zip_with (task_report (training_arguments w0) (image_processor w0))
                       ts accuracies).
Proof.
  apply cell_20_run_tasks in Hrun
    as (ts & accs & Hts & Haccs & _ & _ & _ & _ & _ & Hout & _).
  exists ts, accs. split; [done|].
  split; [by apply length_mapM in Hts|].
  split; [symmetry; by eapply Forall2_length|].
  split.
  - apply list.Forall_forall. intros a Ha.
    apply list_elem_of_lookup in Ha as [i Hi].
    destruct (Forall2_lookup_r _ _ _ _ _ Haccs Hi) as (t & _ & Ht).
    by apply task_accuracy_needs_transform in Ht as [_ ?].
  - rewrite Hout. f_equal. f_equal. clear.
    revert accs. induction ts as [|t ts IH]; intros [|a accs]; simpl; try done.
    by rewrite task_lines_report, IH.
Qed.


End Cell20Output.

(** ** Cell 24 *)





Section AfterTraining.

Context `{L : Library}.





End AfterTraining.

Section Cell24Frame.

Lemma cell_24_globals (w0 w1 : World) :
  cell_24 w0 = Some (tt, w1) →
  image_processor w1 = image_processor w0 ∧ generator w1 = generator w0.
Proof.
  unfold cell_24, for_cfg_in_config_values. intros H.
  apply nb_bind_Some in H as (w & w' & [= <- <-] & H).
  apply (for_range_invariant compose_task
           (λ _ w, image_processor w = image_processor w0 ∧
                   generator w = generator w0)) in H; [done| |done].
  intros i w u w' [Hip Hgen] Hstep.
  rewrite compose_task_is_result in Hstep. unfold compose_task_result in Hstep.
  destruct (config w !! i) as [entry|]; [|discriminate]. simpl in Hstep.
  destruct (snd entry !! "label2id" ≫= as_label2id); [|discriminate].
  destruct (snd entry !! "id2label" ≫= as_id2label); [|discriminate].
  destruct (snd entry !! "path" ≫= as_str) as [path|]; [|discriminate].
  simpl in Hstep. destruct (files w !! path); [|discriminate].
  simpl in Hstep. by injection Hstep as _ <-.
Qed.

(** X18. The loop of cell 24 adds to every task's dictionary the two
    entries "inference_model" and "image_processor", both read from the
    directory at the task's "path", and keeps the key of the task and
    every other entry; it prints nothing, writes no file and leaves the
    training arguments, the global image processor and the generator as
    they are. *)
Theorem cell_24_adds_two_entries (w0 w1 : World)
    (Hrun : cell_24 w0 = Some (tt, w1)) :
  training_arguments w1 = training_arguments w0 ∧
  image_processor w1 = image_processor w0 ∧
  files w1 = files w0 ∧
  stdout w1 = stdout w0 ∧
  generator w1 = generator w0 ∧
  Forall2 (λ e0 e1,
             fst e1 = fst e0 ∧
             composed_cfg (files w0) (snd e0) (snd e1) ∧
             ∀ key, key ≠ "inference_model" → key ≠ "image_processor" →
                    snd e1 !! key = snd e0 !! key)
          (config w0) (config w1).
Proof.
  destruct (cell_24_globals _ _ Hrun) as [Hip Hgen].
  apply cell_24_run in Hrun as (Hlen & Hfiles & Hout & Hargs & _ & Hdone & _).
  repeat split; try done.
  apply Forall2_same_length_lookup_2; [done|].
  intros i e0 e1 He0 He1.
  destruct (Hdone i e0) as (cfg & He1' & Hcomposed);
    [by eapply lookup_lt_Some | done |].
  rewrite He1 in He1'. injection He1' as ->. simpl.
  split; [done|]. split; [done|].
  destruct Hcomposed as (? & ? & ? & ? & _ & _ & _ & ->).
  intros key Hm Hp. by rewrite !lookup_insert_ne.
Qed.

End Cell24Frame.

(** ** [build_inference_model] and [build_lora_model] *)







Transparent count_parameters get_peft_model get_base_model.





Opaque count_parameters get_peft_model get_base_model.




(** ** Cell 28 *)

Section Cell28.

Context `{L : Library}.

Lemma get_model_option cfg key :
  get_model cfg key = from_option (cfg !! key ≫= as_model).
Proof. unfold get_model. by destruct (cfg !! key) as [[]|]. Qed.

Lemma get_processor_option cfg key :
  get_processor cfg key = from_option (cfg !! key ≫= as_processor).
Proof. unfold get_processor. by destruct (cfg !! key) as [[]|]. Qed.

Lemma predict_sample_is_result sample w :
  predict_sample sample w
  = (prediction ← sample_prediction (config w) sample;
     Some (tt, {| config := config w; training_arguments := training_arguments w;
                  image_processor := fst prediction; files := files w;
                  stdout := stdout w ++ [PredictionLine (snd prediction)];
                  calls := calls w; generator := generator w |})).
Proof.
  unfold predict_sample, sample_prediction, config_item.
  unfold nb_bind, get_world.
  destruct (fetch_image (sample_image sample)) as [image|]; [|done]. simpl.
  destruct (list_find _ (config w)) as [[i [key cfg]]|] eqn:Hfind; [|done]. simpl.
  rewrite get_model_option.
  destruct (cfg !! "inference_model" ≫= as_model) as [model|]; [|done]. simpl.
  rewrite Hfind. simpl. rewrite get_processor_option.
  destruct (cfg !! "image_processor" ≫= as_processor) as [processor|]; [|done].
  simpl. by destruct (predict image model processor).
Qed.

Lemma for_each_predict_samples (xs : list Sample) : ∀ w,
  for_each xs predict_sample w = (w' ← predict_samples xs w; Some (tt, w')).
Proof.
  induction xs as [|x xs IH]; intros w; simpl; [done|].
  unfold nb_bind. rewrite predict_sample_is_result.
  destruct (sample_prediction (config w) x) as [prediction|]; [|done]. simpl.
  apply IH.
Qed.

(** What the loop of cell 28 has done when it is through the samples
    [xs]. *)
Lemma predict_samples_effect (xs : list Sample) : ∀ w w',
  predict_samples xs w = Some w' →
  config w' = config w ∧
  training_arguments w' = training_arguments w ∧
  files w' = files w ∧
  calls w' = calls w ∧
  generator w' = generator w ∧
  ∃ predictions,
    Forall2 (λ x prediction, sample_prediction (config w) x = Some prediction)
            xs predictions ∧
    stdout w' = stdout w ++ map (λ prediction, PredictionLine (snd prediction))
                                predictions ∧
    image_processor w' = default (image_processor w) (fst <$> last predictions).
Proof.
  induction xs as [|x xs IH]; intros w w' H; simpl in H.
  - injection H as <-. repeat split; try done.
    exists []. split; [constructor|]. by rewrite app_nil_r.
  - destruct (sample_prediction (config w) x) as [prediction|] eqn:Hx;
      [|discriminate].
    simpl in H. apply IH in H
      as (Hcfg & Hargs & Hfiles & Hcalls & Hgen & predictions & Hall & Hout & Hip).
    simpl in *. repeat split; try done.
    exists (prediction :: predictions). split; [by constructor|]. split.
    + by rewrite Hout, <- app_assoc.
    + rewrite Hip. destruct predictions as [|p ps]; [done|].
      rewrite last_cons_cons.
      destruct (last (p :: ps)) eqn:Hlast; [done|]. by apply last_None in Hlast.
Qed.

(** X21. The loop of cell 28 prints one "Prediction" line per sample, in
    order: the label [predict] gives for the image behind the sample's URL
    with the inference model and the image processor of the task that the
    sample names.  Each round rebinds the global image processor, which is
    left as the one of the last sample's task.  The configuration map, the
    training arguments and the files stay as they are. *)
Theorem cell_28_predictions (w w' : World)
    (Hrun : cell_28 w = Some (tt, w')) :
  config w' = config w ∧
  training_arguments w' = training_arguments w ∧
  files w' = files w ∧
  calls w' = calls w ∧
  generator w' = generator w ∧
  ∃ predictions,
    Forall2 (λ x prediction, sample_prediction (config w) x = Some prediction)
            samples predictions ∧
    stdout w' = stdout w ++ map (λ prediction, PredictionLine (snd prediction))
                                predictions ∧
    (∀ prediction, last predictions = Some prediction →
                   image_processor w' = fst prediction).
Proof.
  unfold cell_28 in Hrun. rewrite for_each_predict_samples in Hrun.
  destruct (predict_samples samples w) as [w1|] eqn:Hsamples; [|discriminate].
  injection Hrun as ->.
  apply predict_samples_effect in Hsamples
    as (Hcfg & Hargs & Hfiles & Hcalls & Hgen & predictions & Hall & Hout & Hip).
  repeat split; try done.
  exists predictions. split; [done|]. split; [done|].
  intros prediction Hlast. by rewrite Hip, Hlast.
Qed.

End Cell28.

(** ** The notebook from top to bottom *)

Section NotebookCells.

Context `{L : Library}.








End NotebookCells.

Section NotebookRun.

Context `{L : Library}.







End NotebookRun.

Section Independence.

Context `{L : Library}.




End Independence.

(** ** The properties on the demonstration library *)

Lemma cell_14_sets_transforms_witness :
  @cell_14 Demo.library DemoCells.loaded_world
  = Some (tt, DemoCells.transformed_world) ∧
  stdout DemoCells.transformed_world = stdout DemoCells.loaded_world ∧
  files DemoCells.transformed_world = files DemoCells.loaded_world.
Proof.
  assert (H14 : @cell_14 Demo.library DemoCells.loaded_world
                = Some (tt, DemoCells.transformed_world))
    by (vm_compute; reflexivity).
  split; [exact H14|].
  destruct (cell_14_sets_transforms _ _ H14) as (_ & _ & Hfiles & Hout & _).
  split; [exact Hout | exact Hfiles].
Defined.

Lemma cell_20_requirements_witness :
  @cell_20 Demo.library Demo.prepared_world = Some (tt, Demo.trained_world) ∧
  Forall (λ entry, is_Some (snd entry !! "epochs") ∧ is_Some (snd entry !! "path"))
         (config Demo.prepared_world).
Proof.
  assert (H20 : @cell_20 Demo.library Demo.prepared_world
                = Some (tt, Demo.trained_world))
    by (vm_compute; reflexivity).
  split; [exact H20|].
  eapply Forall_impl; [exact (cell_20_requirements _ _ H20)|].
  intros entry (t & He & _ & _ & _ & _ & Hp & _). rewrite He, Hp.
  split; eexists; reflexivity.
Defined.


Lemma cell_20_prints_witness :
  @cell_20 Demo.library Demo.prepared_world = Some (tt, Demo.trained_world) ∧
  ∃ ts accuracies,
    length ts = length (config Demo.prepared_world) ∧
    length accuracies = length ts ∧
    stdout Demo.trained_world
    = stdout Demo.prepared_world ++
      concat (zip_with (@task_report Demo.library (training_arguments Demo.prepared_world)
                                    (image_processor Demo.prepared_world))
                       ts accuracies).
Proof.
  assert (H20 : @cell_20 Demo.library Demo.prepared_world
                = Some (tt, Demo.trained_world))
    by (vm_compute; reflexivity).
  split; [exact H20|].
  destruct (cell_20_prints _ _ H20) as (ts & accs & _ & Hts & Haccs & _ & Hout).
  exists ts, accs. split; [exact Hts|]. split; [exact Haccs | exact Hout].
Defined.




Lemma cell_24_adds_two_entries_witness :
  cell_24 Demo.trained_world = Some (tt, Demo.composed_world) ∧
  files Demo.composed_world = files Demo.trained_world ∧
  stdout Demo.composed_world = stdout Demo.trained_world.
Proof.
  assert (H24 : cell_24 Demo.trained_world = Some (tt, Demo.composed_world))
    by (vm_compute; reflexivity).
  split; [exact H24|].
  destruct (cell_24_adds_two_entries _ _ H24) as (_ & _ & Hfiles & Hout & _).
  split; [exact Hfiles | exact Hout].
Defined.

Lemma cell_28_predictions_witness :
  @cell_28 Demo.library Demo.composed_world
  = Some (tt, DemoCells.finished_world) ∧
  config DemoCells.finished_world = config Demo.composed_world ∧
  files DemoCells.finished_world = files Demo.composed_world.
Proof.
  assert (H28 : @cell_28 Demo.library Demo.composed_world
                = Some (tt, DemoCells.finished_world))
    by (vm_compute; reflexivity).
  split; [exact H28|].
  destruct (cell_28_predictions _ _ H28) as (Hcfg & _ & Hfiles & _).
  split; [exact Hcfg | exact Hfiles].
Defined.




